(** * FlowTest server: the request proxy and the collection import

    A shallow embedding of [src/server/src/index.ts] (class [App]): the
    handler of [PUT /api/v1/request], which proxies one HTTP call through
    axios, and [createCollection] with the handler of
    [POST /api/v1/collection], which imports an OpenAPI document.

    The handlers are written against the platform they call (fetch, axios,
    swagger-parser, json-refs, the file system, the repository): these are
    fields of a [Platform] record, and every call made is logged in a trace,
    so that "before any network I/O" and "validation before resolution" are
    statements about that trace.

    The proxy handler is modelled in two layers: [put_request] runs it up to
    its first call of [res.status(..).send(..)], and [serve_request] performs
    the sends as express does, where a send may alter the status or throw.

    The routes over the stored entities (flows, collections, credentials)
    and [initSamples] follow, written against a [Store] of repositories. *)

From Stdlib Require Import String List ZArith Bool Lia DecimalString.
Import ListNotations.
Open Scope string_scope.
Open Scope Z_scope.

Set Warnings "-register-all".

(** ** JavaScript values *)

Module Js.

(** The values the handlers see: what [express.json()] parses out of a
    request body, plus the three platform objects the proxy handler builds
    (a [Blob], a [FormData], an [AbortSignal]).  An object is the list of its
    own properties in the engine's enumeration order. *)
Inductive value : Type :=
| Undefined
| Null
| Bool (b : bool)
| Num (n : Z)
| Str (s : string)
| Arr (items : list value)
| Obj (props : list (string * value))
| BlobV (bytes : list Byte.byte)
| FormDataV (entries : list (value * value * value))
| SignalV (delay : Z).

(** A response as axios hands it over ([result] and [error.response]). *)
Record Response : Type := mkResponse {
  status : Z;
  headers : value;
  data : value
}.

(** The properties of a thrown error that the handlers inspect.  A property
    that is absent is [None]; [error.message] is falsy also when it is the
    empty string. *)
Record Error : Type := mkError {
  code : option string;
  response : option Response;
  request : option value;
  message : option string
}.

(** [new TypeError(msg)]: a message, and none of axios's properties. *)
Definition TypeError (msg : string) : Error :=
  {| code := None; response := None; request := None; message := Some msg |}.

(** [error.code === s] for a string literal [s]. *)
Definition code_is (e : Error) (s : string) : bool :=
  match code e with
  | Some c => String.eqb c s
  | None => false
  end.

(** Truthiness of [error.message]. *)
Definition truthy_message (e : Error) : bool :=
  match message e with
  | Some m => negb (String.eqb m "")
  | None => false
  end.

(** The value of [error.message]. *)
Definition message_text (e : Error) : value :=
  match message e with
  | Some m => Str m
  | None => Undefined
  end.

(** [x === s] for a string literal [s]. *)
Definition strict_eq_str (x : value) (s : string) : bool :=
  match x with
  | Str t => String.eqb t s
  | _ => false
  end.

Fixpoint lookup (k : string) (props : list (string * value)) : option value :=
  match props with
  | [] => None
  | (k', v) :: rest => if String.eqb k k' then Some v else lookup k rest
  end.

(** [obj[k] = v] on the property list: an existing property keeps its place,
    a new one goes last. *)
Fixpoint assign (k : string) (v : value) (props : list (string * value))
  : list (string * value) :=
  match props with
  | [] => [(k, v)]
  | (k', v') :: rest =>
      if String.eqb k k' then (k', v) :: rest else (k', v') :: assign k v rest
  end.

Definition index_name (i : nat) : string :=
  NilZero.string_of_uint (Nat.to_uint i).

(** A property name that is a canonical array index. *)
Definition array_index (k : string) : option nat :=
  match NilEmpty.uint_of_string k with
  | Some u =>
      let i := Nat.of_uint u in
      if String.eqb (index_name i) k then Some i else None
  | None => None
  end.

Definition chars (s : string) : list value :=
  map (fun c => Str (String c EmptyString)) (list_ascii_of_string s).

Definition indexed (items : list value) (k : string) : value :=
  if String.eqb k "length" then Num (Z.of_nat (List.length items))
  else match array_index k with
       | Some i => nth i items Undefined
       | None => Undefined
       end.

(** [x.k] / [x[k]], own properties only.  Reading a property of [undefined]
    or [null] throws a [TypeError]; on any other value a missing property
    reads as [undefined]. *)
Definition get_prop (x : value) (k : string) : Error + value :=
  match x with
  | Undefined =>
      inl (TypeError ("Cannot read properties of undefined (reading '" ++ k ++ "')"))
  | Null =>
      inl (TypeError ("Cannot read properties of null (reading '" ++ k ++ "')"))
  | Obj props =>
      inr (match lookup k props with Some v => v | None => Undefined end)
  | Arr items => inr (indexed items k)
  | Str s => inr (indexed (chars s) k)
  | _ => inr Undefined
  end.

(** [x.k = v]: the handlers only ever assign to a parsed JSON object. *)
Definition set_prop (x : value) (k : string) (v : value) : value :=
  match x with
  | Obj props => Obj (assign k v props)
  | _ => x
  end.

Fixpoint enumerate (i : nat) (items : list value) : list (string * value) :=
  match items with
  | [] => []
  | v :: rest => (index_name i, v) :: enumerate (S i) rest
  end.

(** The own enumerable properties copied by [{...x}]. *)
Definition spread (x : value) : list (string * value) :=
  match x with
  | Obj props => props
  | Arr items => enumerate 0 items
  | Str s => enumerate 0 (chars s)
  | _ => []
  end.

(** [formData.append(name, blob, filename)]: the entry is kept as the three
    arguments of the call. *)
Definition append (entries : list (value * value * value))
    (name blob filename : value) : list (value * value * value) :=
  (entries ++ [(name, blob, filename)])%list.

End Js.

Import Js.

(** ** Effects: a trace of platform calls, and exceptions *)

Inductive Event : Type :=
| EFetch (url : value)
| EAxios (options : value)
| ERead (path : value)
| EValidate (path : value)
| EResolve (api : value)
| EParse (resolved : value)
| ESave (entity : value).

(** A computation logs the platform calls it makes and either throws or
    returns.  The log survives a throw. *)
Definition M (A : Type) : Type := (list Event * (Error + A))%type.

Definition ret {A} (a : A) : M A := ([], inr a).

Definition bind {A B} (m : M A) (f : A -> M B) : M B :=
  match m with
  | (t, inl e) => (t, inl e)
  | (t, inr a) => let (t', r) := f a in ((t ++ t')%list, r)
  end.

(** A pure step that may throw. *)
Definition lift {A} (r : Error + A) : M A := ([], r).

(** A platform call: logged, then it throws or returns. *)
Definition call {A} (ev : Event) (r : Error + A) : M A := ([ev], r).

(** [try { m } catch (error) { h error }] where the handler itself returns. *)
Definition try_catch {A} (m : M A) (h : Error -> A) : list Event * A :=
  match m with
  | (t, inl e) => (t, h e)
  | (t, inr a) => (t, a)
  end.

Declare Scope js_scope.
Delimit Scope js_scope with js.
Notation "x <- m ;; k" := (bind m (fun x => k))
  (at level 100, m at next level, right associativity) : js_scope.
Open Scope js_scope.

(** ** The platform *)

Record Platform : Type := mkPlatform {
  (** [fetch(url)] followed by [response.blob()] *)
  fetch : value -> Error + list Byte.byte;
  (** [axios(options)] *)
  axios : value -> Error + Response;
  (** [fs.readFileSync(path, 'utf8')] *)
  readFileSync : value -> Error + string;
  (** [SwaggerParser.validate(path)] *)
  validate : value -> Error + value;
  (** [JsonRefs.resolveRefs(api)] *)
  resolveRefs : value -> Error + value;
  (** [collectionUtil.parse(resolved)] *)
  parse : value -> Error + value;
  (** [JSON.stringify(nodes)] *)
  stringify : value -> Error + value;
  (** [getRepository(Collection).save(entity)] *)
  save : value -> Error + value
}.

(** ** The express response *)

(** What [res.send] / [res.json] was given: a value or the caught error. *)
Inductive Sent : Type :=
| SendValue (v : value)
| SendError (e : Error).

(** A call [res.status(statusCode).send(body)] as a handler makes it: the
    status it sets and the argument it gives to [send].  What express then
    does with the call, which may alter the status or throw, is
    [express_send] below. *)
Record Reply : Type := mkReply {
  statusCode : Z;
  body : Sent
}.

(** The [return] statement of the proxy handler at which that call is made:
    line 189, then the five arms of the [catch] (lines 193, 198, 203, 206,
    209). *)
Inductive Site : Type :=
| SiteResolved
| SiteCanceled
| SiteResponse
| SiteRequest
| SiteMessage
| SiteOther.

(** ** class App *)

Record App : Type := mkApp {
  port : Z;
  timeout : Z
}.

(** [constructor()] *)
Definition new_App : App := {| port := 3500; timeout := 60000 |}.

(** [this.timeout || 0] *)
Definition timeout_or_0 (app : App) : Z :=
  if timeout app =? 0 then 0 else timeout app.

(** [newAbortSignal()]: the signal of a controller that aborts after
    [this.timeout || 0] milliseconds. *)
Definition newAbortSignal (app : App) : value :=
  SignalV (timeout_or_0 app).

(** [convertBase64ToBlob(base64)] *)
Definition convertBase64ToBlob (P : Platform) (base64 : value) : M value :=
  bytes <- call (EFetch base64) (fetch P base64) ;;
  ret (BlobV bytes).

(** *** PUT /api/v1/request *)

(** Lines 174-180: the multipart branch. *)
Definition prepare_body (P : Platform) (req_body : value) : M value :=
  hdrs <- lift (get_prop req_body "headers") ;;
  ct <- lift (get_prop hdrs "Content-type") ;;
  if strict_eq_str ct "multipart/form-data" then
    d <- lift (get_prop req_body "data") ;;
    v <- lift (get_prop d "value") ;;
    file <- convertBase64ToBlob P v ;;
    k <- lift (get_prop d "key") ;;
    n <- lift (get_prop d "name") ;;
    let requestData := append [] k file n in
    ret (set_prop req_body "data" (FormDataV requestData))
  else ret req_body.

(** Lines 183-186: [{...req.body, signal: this.newAbortSignal()}]. *)
Definition make_options (app : App) (req_body : value) : value :=
  Obj (assign "signal" (newAbortSignal app) (spread req_body)).

(** Lines 174-189: the [try] block, up to the call of [send] on line 189,
    which it returns without performing it. *)
Definition request_try (P : Platform) (app : App) (req_body : value)
  : M (Site * Reply) :=
  req_body' <- prepare_body P req_body ;;
  let options := make_options app req_body' in
  result <- call (EAxios options) (axios P options) ;;
  ret (SiteResolved, {| statusCode := 200; body := SendValue (data result) |}).

(** Lines 190-211: the [catch] block, an [if / else if] chain; the arm
    taken and the call of [send] it makes. *)
Definition request_catch (error : Error) : Site * Reply :=
  if code_is error "ERR_CANCELED" then
    (SiteCanceled, {| statusCode := 408; body := SendError error |})
  else
    match response error with
    | Some r =>
        (SiteResponse, {| statusCode := status r; body := SendValue (data r) |})
    | None =>
        match request error with
        | Some q =>
            (SiteRequest, {| statusCode := 503; body := SendValue q |})
        | None =>
            if truthy_message error then
              (SiteMessage,
               {| statusCode := 400; body := SendValue (message_text error) |})
            else
              (SiteOther, {| statusCode := 500; body := SendError error |})
        end
    end.

(** The handler up to its first call of [send]: the trace of platform calls,
    the site of the call, the call.  [serve_request] below performs it. *)
Definition put_request (P : Platform) (app : App) (req_body : value)
  : list Event * (Site * Reply) :=
  try_catch (request_try P app req_body) request_catch.

(** *** res.send *)

(** What a call of [send] depends on outside these sources: the table of
    status messages ([statuses]), whether this express also drops the body
    of a 205 (it does from 4.18 on), and the error with which
    [JSON.stringify] throws on what [res.json] is given, if it does (it
    does on a circular object). *)
Record Express : Type := mkExpress {
  statuses : Z -> option string;
  resets_205 : bool;
  json_error : Sent -> option Error
}.

(** The body of a response: none, a text, or the JSON text of what was
    sent. *)
Inductive Body : Type :=
| Empty
| Text (s : string)
| JsonOf (x : Sent).

(** What the caller receives. *)
Record Answer : Type := mkAnswer {
  answer_status : Z;
  answer_body : Body
}.

(** A run either answers the caller, or ends with the handler's promise
    rejected and nothing sent. *)
Inductive Served : Type :=
| Answered (a : Answer)
| Unanswered (e : Error).

(** The statuses whose body [send] drops. *)
Definition bodyless (X : Express) (n : Z) : bool :=
  (n =? 204) || (n =? 304) || ((n =? 205) && resets_205 X).

(** The [RangeError] of node's [writeHead]. *)
Definition invalid_status (n : Z) : Error :=
  {| code := Some "ERR_HTTP_INVALID_STATUS_CODE";
     response := None; request := None;
     message := Some ("Invalid status code: "
                      ++ NilZero.string_of_int (Z.to_int n)) |}.

(** The end of [send]: node refuses a status outside 100..999. *)
Definition finish (X : Express) (n : Z) (chunk : Body) : Error + Answer :=
  if (n <? 100) || (999 <? n) then inl (invalid_status n)
  else inr {| answer_status := n;
              answer_body := if bodyless X n then Empty else chunk |}.

(** What [send] makes of an argument that is not a number: a string goes out
    as it is, [null] as the empty text, [undefined] as no body, anything
    else through [res.json]. *)
Definition chunk_of (x : Sent) : Body :=
  match x with
  | SendValue (Str s) => Text s
  | SendValue Undefined => Empty
  | SendValue Null => Text ""
  | _ => JsonOf x
  end.

(** [res.status(statusCode).send(body)] in express 4.  A lone number is
    taken as the status and answered with its message; an object, array or
    boolean is serialised, which may throw. *)
Definition express_send (X : Express) (r : Reply) : Error + Answer :=
  match body r with
  | SendValue (Num n) =>
      finish X n (match statuses X n with
                  | Some m => Text m
                  | None => Empty
                  end)
  | SendValue (Str _) | SendValue Undefined | SendValue Null =>
      finish X (statusCode r) (chunk_of (body r))
  | x =>
      match json_error X x with
      | Some e => inl e
      | None => finish X (statusCode r) (JsonOf x)
      end
  end.

(** The handler of PUT /api/v1/request with its sends performed.  The send
    of line 189 is inside the [try]: when it throws, the [catch] runs on
    what it threw.  A send of the [catch] that throws rejects the handler's
    promise, and nothing is sent. *)
Definition serve_request (X : Express) (P : Platform) (app : App)
    (req_body : value) : list Event * Served :=
  let (t, first) := put_request P app req_body in
  let (site, sending) := first in
  match express_send X sending with
  | inr a => (t, Answered a)
  | inl thrown =>
      match site with
      | SiteResolved =>
          match express_send X (snd (request_catch thrown)) with
          | inr a => (t, Answered a)
          | inl e => (t, Unanswered e)
          end
      | _ => (t, Unanswered thrown)
      end
  end.

(** *** createCollection and POST /api/v1/collection *)

(** Lines 46-67. *)
Definition createCollection (P : Platform) (path : value) : M value :=
  spec <- call (ERead path) (readFileSync P path) ;;
  api <- call (EValidate path) (validate P path) ;;
  resolvedSpec <- call (EResolve api) (resolveRefs P api) ;;
  resolved <- lift (get_prop resolvedSpec "resolved") ;;
  parsedNodes <- call (EParse resolved) (parse P resolved) ;;
  info <- lift (get_prop api "info") ;;
  title <- lift (get_prop info "title") ;;
  nodes <- lift (stringify P parsedNodes) ;;
  let newCollection :=
    Obj [("name", title); ("collection", Str spec); ("nodes", nodes)] in
  result <- call (ESave newCollection) (save P newCollection) ;;
  ret result.

Definition parse_failure : Reply :=
  {| statusCode := 500; body := SendValue (Str "Failed to parse openapi spec") |}.

(** Lines 224-233; [req_file] is [req.file] as multer left it. *)
Definition post_collection (P : Platform) (req_file : value)
  : list Event * Reply :=
  try_catch
    (path <- lift (get_prop req_file "path") ;;
     results <- createCollection P path ;;
     ret {| statusCode := 200; body := SendValue results |})
    (fun _ => parse_failure).

(** ** CollectionBuilder *)

Module CollectionUtil.

(** Modelled from the spec: [CollectionUtil.parse] lives in
    [./collection-util], which is not among the sources; only its call in
    [createCollection] is.  The builder below follows sections 3 and 4.2 of
    the specification: every (path, method) pair in declaration order, one
    [RequestNode] each, path-level parameters merged under the operation's
    own, operations that cannot be invoked directly skipped, and the node id
    computed from method and path by [node_id], which the specification
    leaves open. *)

Inductive Location : Type := InPath | InQuery | InHeader | InCookie.

Definition Location_eqb (a b : Location) : bool :=
  match a, b with
  | InPath, InPath | InQuery, InQuery
  | InHeader, InHeader | InCookie, InCookie => true
  | _, _ => false
  end.

Record Param : Type := mkParam {
  param_name : string;
  location : Location;
  required : bool;
  param_schema : value
}.

Record Operation : Type := mkOperation {
  method : string;
  summary : string;
  parameters : list Param;
  requestBody : option (string * value);
  responses : list (Z * value);
  callback_only : bool
}.

Record PathItem : Type := mkPathItem {
  path : string;
  path_parameters : list Param;
  operations : list Operation
}.

Definition ResolvedSpec : Type := list PathItem.

Record RequestNode : Type := mkRequestNode {
  id : string;
  node_method : string;
  node_path : string;
  node_summary : string;
  node_parameters : list Param;
  node_requestBody : option (string * value);
  node_responses : list (Z * value)
}.

Definition same_slot (p q : Param) : bool :=
  String.eqb (param_name p) (param_name q)
  && Location_eqb (location p) (location q).

(** Operation-level parameters win on a name and location collision. *)
Definition merge_parameters (item_level op_level : list Param)
  : list Param :=
  (filter (fun p => negb (existsb (same_slot p) op_level)) item_level
   ++ op_level)%list.

Section Builder.

Variable node_id : string -> string -> string.

Definition build_node (item : PathItem) (op : Operation) : RequestNode :=
  {| id := node_id (method op) (path item);
     node_method := method op;
     node_path := path item;
     node_summary := summary op;
     node_parameters := merge_parameters (path_parameters item) (parameters op);
     node_requestBody := requestBody op;
     node_responses := responses op |}.

Definition build_item (item : PathItem) : list RequestNode :=
  map (build_node item)
      (filter (fun op => negb (callback_only op)) (operations item)).

Fixpoint build (spec : ResolvedSpec) : list RequestNode :=
  match spec with
  | [] => []
  | item :: rest => (build_item item ++ build rest)%list
  end.

End Builder.

(** The (method, path) pairs of the operations that become nodes, in
    declaration order. *)
Fixpoint declared (spec : ResolvedSpec) : list (string * string) :=
  match spec with
  | [] => []
  | item :: rest =>
      (map (fun op => (method op, path item))
           (filter (fun op => negb (callback_only op)) (operations item))
       ++ declared rest)%list
  end.

End CollectionUtil.

(** ** Test doubles *)

Module Mock.

(** What the upstream server does with the one call it receives, and after
    how many milliseconds. *)
Inductive Upstream : Type :=
| Responds (after : Z) (r : Response)
| Refuses (after : Z) (cause : string).

Definition clientRequest (options : value) : value :=
  Obj [("method", match get_prop options "method" with inr m => m | inl _ => Undefined end);
       ("path", match get_prop options "url" with inr u => u | inl _ => Undefined end)].

Definition CanceledError (options : value) : Error :=
  {| code := Some "ERR_CANCELED"; response := None;
     request := Some (clientRequest options); message := Some "canceled" |}.

(** The signal fires before the upstream is done. *)
Definition aborted (options : value) (after : Z) : bool :=
  match get_prop options "signal" with
  | inr (SignalV delay) => delay <=? after
  | _ => false
  end.

(** An axios that follows the comments of the proxy handler: it resolves on a
    2xx response, rejects with the response attached on any other status,
    rejects with only the request attached when nothing came back, and
    rejects with code ERR_CANCELED when the signal fires first. *)
Definition axios_against (up : Upstream) (options : value) : Error + Response :=
  match up with
  | Responds after r =>
      if aborted options after then inl (CanceledError options)
      else if (200 <=? status r) && (status r <? 300) then inr r
      else inl {| code := Some (if status r <? 500 then "ERR_BAD_REQUEST"
                                else "ERR_BAD_RESPONSE");
                  response := Some r;
                  request := Some (clientRequest options);
                  message := Some "Request failed" |}
  | Refuses after cause =>
      if aborted options after then inl (CanceledError options)
      else inl {| code := Some cause; response := None;
                  request := Some (clientRequest options);
                  message := Some ("connect " ++ cause) |}
  end.

(** A fetch that knows a fixed set of data references. *)
Fixpoint fetch_from (known : list (string * list Byte.byte)) (url : value)
  : Error + list Byte.byte :=
  match known with
  | [] => inl (TypeError "fetch failed")
  | (u, bytes) :: rest =>
      if strict_eq_str url u then inr bytes else fetch_from rest url
  end.

(** A validator that accepts one document and rejects every other. *)
Definition validate_only (good : string) (api : value) (path : value)
  : Error + value :=
  if strict_eq_str path good then inr api
  else inl {| code := None; response := None; request := None;
              message := Some "not a valid Openapi API definition" |}.

Definition png : list Byte.byte := [Byte.x89; Byte.x50; Byte.x4e; Byte.x47].

Definition petstore : value :=
  Obj [("openapi", Str "3.0.2");
       ("info", Obj [("title", Str "Swagger Petstore - OpenAPI 3.0")]);
       ("paths", Obj [])].

Definition platform (up : Upstream) : Platform :=
  {| fetch := fetch_from [("data:image/png;base64,iVBORw==", png)];
     axios := axios_against up;
     readFileSync := fun path =>
       match path with
       | Str p => inr ("contents of " ++ p)
       | _ => inl (TypeError "The path argument must be of type string")
       end;
     validate := validate_only "uploads/petstore.yaml" petstore;
     resolveRefs := fun api => inr (Obj [("resolved", api)]);
     parse := fun _ => inr (Arr []);
     stringify := fun _ => inr (Str "[]");
     save := fun entity => inr (set_prop entity "id" (Str "c0ffee")) |}.

End Mock.

(** ** Sample requests and responses *)

Module Sample.

Definition ok : Response :=
  {| status := 200;
     headers := Obj [("content-type", Str "application/json")];
     data := Obj [("id", Num 7)] |}.


Definition not_found : Response :=
  {| status := 404;
     headers := Obj [("content-type", Str "text/plain")];
     data := Str "Pet not found" |}.

Definition get_pet : value :=
  Obj [("method", Str "get"); ("url", Str "http://upstream/pet/7");
       ("headers", Obj [])].

Definition upload_headers : value :=
  Obj [("Content-type", Str "multipart/form-data")].

(** One binary part, the shape the proxy handler reads. *)
Definition file_part : value :=
  Obj [("key", Str "file");
       ("value", Str "data:image/png;base64,iVBORw==");
       ("name", Str "f.png")].

Definition text_part : value :=
  Obj [("key", Str "key"); ("value", Str "value")].

Definition upload (d : value) : value :=
  Obj [("method", Str "post"); ("url", Str "http://upstream/upload");
       ("headers", upload_headers); ("data", d)].

(** A binary part whose data reference does not decode. *)
Definition corrupt_part : value :=
  Obj [("key", Str "file");
       ("value", Str "data:image/png;base64,@@@");
       ("name", Str "f.png")].

(** The part list of the specification's example: a text field and a
    binary field. *)
Definition part_list : value := Arr [text_part; file_part].


(** One operation declared twice over, with different summaries and
    parameters, next to an operation that cannot be invoked directly. *)
Definition pet_id : CollectionUtil.Param :=
  {| CollectionUtil.param_name := "petId";
     CollectionUtil.location := CollectionUtil.InPath;
     CollectionUtil.required := true;
     CollectionUtil.param_schema := Obj [("type", Str "integer")] |}.

Definition operation (m s : string) (ps : list CollectionUtil.Param)
    (cb : bool) : CollectionUtil.Operation :=
  {| CollectionUtil.method := m;
     CollectionUtil.summary := s;
     CollectionUtil.parameters := ps;
     CollectionUtil.requestBody := None;
     CollectionUtil.responses := [(200, Obj [])];
     CollectionUtil.callback_only := cb |}.

Definition spec_v1 : CollectionUtil.ResolvedSpec :=
  [ {| CollectionUtil.path := "/pet/{petId}";
       CollectionUtil.path_parameters := [pet_id];
       CollectionUtil.operations :=
         [operation "get" "Find pet by ID" [] false;
          operation "post" "Notified later" [] true;
          operation "delete" "Deletes a pet" [] false] |};
    {| CollectionUtil.path := "/store/inventory";
       CollectionUtil.path_parameters := [];
       CollectionUtil.operations :=
         [operation "get" "Returns pet inventories" [] false] |} ].

Definition spec_v2 : CollectionUtil.ResolvedSpec :=
  [ {| CollectionUtil.path := "/pet/{petId}";
       CollectionUtil.path_parameters := [];
       CollectionUtil.operations :=
         [operation "get" "Look a pet up" [pet_id] false;
          operation "delete" "Remove a pet" [pet_id] false] |};
    {| CollectionUtil.path := "/store/inventory";
       CollectionUtil.path_parameters := [];
       CollectionUtil.operations :=
         [operation "get" "Inventory by status" [] false] |} ].

Definition method_and_path (m p : string) : string := m ++ " " ++ p.

(** The caller trying for a deadline of its own: 10 ms, under the one option
    name that governs cancellation. *)
Definition impatient : value :=
  Obj [("method", Str "get"); ("url", Str "http://upstream/pet/7");
       ("headers", Obj []); ("signal", Num 10)].

End Sample.

(** ** Derived notions *)

(** The condition of line 174, [false] when evaluating it throws. *)
Definition is_multipart (req_body : value) : bool :=
  match get_prop req_body "headers" with
  | inr hdrs =>
      match get_prop hdrs "Content-type" with
      | inr ct => strict_eq_str ct "multipart/form-data"
      | inl _ => false
      end
  | inl _ => false
  end.

(** The entries of a [FormData] body, read back. *)
Definition parts_of (v : value) : list (value * value * value) :=
  match v with
  | FormDataV entries => entries
  | _ => []
  end.

(** [options.k], [undefined] when reading it throws. *)
Definition option_of (options : value) (k : string) : value :=
  match get_prop options k with
  | inr v => v
  | inl _ => Undefined
  end.

(** ** The entity store and the other routes *)

(** The three repositories [getRepository(FlowTest)],
    [getRepository(Collection)] and [getRepository(AuthKey)]. *)
Inductive Table : Type := FlowTests | Collections | AuthKeys.

(** An entity is an object: the list of its own properties. *)
Definition Entity : Type := list (string * value).

(** What the routes outside the proxy and the import call: the repositories,
    the entity constructors ([new FlowTest()], [new AuthKey()], whose classes
    are outside these sources and are given by the own properties of a fresh
    instance), and [new FlowtestAI().generate]. *)
Record Store : Type := mkStore {
  (** [getRepository(T).find()] *)
  repo_find : Table -> Error + list Entity;
  (** [getRepository(T).findOneBy({id})]: the entity or [null] *)
  repo_findOneBy : Table -> string -> Error + option Entity;
  (** [getRepository(T).save(entity)] *)
  repo_save : Table -> Entity -> Error + Entity;
  (** [getRepository(T).remove(entity)] *)
  repo_remove : Table -> Entity -> Error + Entity;
  (** [new T()] *)
  new_entity : Table -> Entity;
  (** [flowTestAI.generate(collection, cmd)] *)
  generate : value -> value -> Error + value
}.

(** The calls of these routes; [Core] is a call of the import. *)
Inductive Call : Type :=
| Core (e : Event)
| Find (t : Table)
| FindOneBy (t : Table) (id : string)
| Save (t : Table) (entity : Entity)
| Remove (t : Table) (entity : Entity)
| Generate (collection cmd : value).

(** An [async] route: the calls it made, and the reply it sent or the error
    its promise was rejected with. *)
Definition W (A : Type) : Type := (list Call * (Error + A))%type.

Definition wret {A} (a : A) : W A := ([], inr a).

Definition wbind {A B} (m : W A) (f : A -> W B) : W B :=
  match m with
  | (t, inl e) => (t, inl e)
  | (t, inr a) => let (t', r) := f a in ((t ++ t')%list, r)
  end.

Definition wlift {A} (r : Error + A) : W A := ([], r).

Definition wcall {A} (c : Call) (r : Error + A) : W A := ([c], r).

(** A computation of the import, run inside a route. *)
Definition from_platform {A} (m : M A) : W A := (map Core (fst m), snd m).

Notation "x <-- m ;; k" := (wbind m (fun x => k))
  (at level 100, m at next level, right associativity) : js_scope.

(** Truthiness, as [if (x)] tests it. *)
Definition truthy (x : value) : bool :=
  match x with
  | Undefined | Null => false
  | Bool b => b
  | Num n => negb (n =? 0)
  | Str s => negb (String.eqb s "")
  | _ => true
  end.

(** [entity.k] *)
Definition prop (entity : Entity) (k : string) : value :=
  match lookup k entity with
  | Some v => v
  | None => Undefined
  end.

(** [Object.assign(target, source)]: the own enumerable properties of the
    source, set on the target one after the other.  A key other than
    '__proto__' becomes an own property of the target; '__proto__' goes to
    the setter of [Object.prototype] and leaves no own property. *)
Definition Object_assign (target : Entity) (source : value) : Entity :=
  fold_left (fun t kv =>
               if String.eqb (fst kv) "__proto__" then t
               else assign (fst kv) (snd kv) t)
            (spread source) target.

(** The prototype that [Object.assign] gave the target, if it gave one: the
    last object or [null] set under '__proto__' (the setter ignores any
    other value). *)
Definition assigned_prototype (source : value) : option value :=
  fold_left (fun p kv =>
               if String.eqb (fst kv) "__proto__" then
                 match snd kv with
                 | Undefined | Bool _ | Num _ | Str _ => p
                 | proto => Some proto
                 end
               else p)
            (spread source) None.

(** [entity.k] for an entity with the given own properties and assigned
    prototype, for the names the routes read ([name], [flowData]), which
    neither an entity class nor [Object.prototype] defines. *)
Definition read (own : Entity) (proto : option value) (k : string) : value :=
  match lookup k own with
  | Some v => v
  | None =>
      match proto with
      | Some (Obj inherited) => prop inherited k
      | Some (Arr items) => indexed items k
      | _ => Undefined
      end
  end.

(** [res.json(x)] *)
Definition json (x : value) : Reply :=
  {| statusCode := 200; body := SendValue x |}.

Definition entity_name (t : Table) : string :=
  match t with
  | FlowTests => "FlowTest"
  | Collections => "Collection"
  | AuthKeys => "AuthKey"
  end.

Definition plural_name (t : Table) : string :=
  match t with
  | FlowTests => "flowtests"
  | Collections => "collections"
  | AuthKeys => "authkeys"
  end.

(** [res.status(404).send(`T ${req.params.id} not found`)] *)
Definition not_found (t : Table) (id : string) : Reply :=
  {| statusCode := 404;
     body := SendValue (Str (entity_name t ++ " " ++ id ++ " not found")) |}.

(** [res.status(404).send('Error in fetching saved ts')] *)
Definition fetch_error (t : Table) : Reply :=
  {| statusCode := 404;
     body := SendValue (Str ("Error in fetching saved " ++ plural_name t)) |}.

(** The shape of the two creating routes (lines 117-126 and 266-275). *)
Definition create (S : Store) (t : Table) (req_body : value) : W Reply :=
  let newEntity := Object_assign (new_entity S t) req_body in
  result <-- wcall (Save t newEntity) (repo_save S t newEntity) ;;
  wret (json (Obj result)).

(** The shape of the three reading routes by id (lines 149-155, 257-263). *)
Definition get_by_id (S : Store) (t : Table) (id : string) : W Reply :=
  found <-- wcall (FindOneBy t id) (repo_findOneBy S t id) ;;
  match found with
  | Some entity => wret (json (Obj entity))
  | None => wret (not_found t id)
  end.

(** The shape of the three deleting routes (lines 158-169, 236-247,
    285-296). *)
Definition delete_by_id (S : Store) (t : Table) (id : string) : W Reply :=
  found <-- wcall (FindOneBy t id) (repo_findOneBy S t id) ;;
  match found with
  | Some entity =>
      result <-- wcall (Remove t entity) (repo_remove S t entity) ;;
      wret (json (Obj result))
  | None => wret (not_found t id)
  end.

(** The shape of the three listing routes (lines 215-219, 250-254,
    278-282). *)
Definition list_all (S : Store) (t : Table) : W Reply :=
  rows <-- wcall (Find t) (repo_find S t) ;;
  let all := Arr (map Obj rows) in
  if truthy all then wret (json all) else wret (fetch_error t).

(** POST /api/v1/flowtest *)
Definition post_flowtest (S : Store) (req_body : value) : W Reply :=
  create S FlowTests req_body.

(** PUT /api/v1/flowtest/:id, lines 129-146. *)
Definition put_flowtest (S : Store) (id : string) (req_body : value) : W Reply :=
  found <-- wcall (FindOneBy FlowTests id) (repo_findOneBy S FlowTests id) ;;
  match found with
  | Some flowtest =>
      let updateFlowTest := Object_assign (new_entity S FlowTests) req_body in
      let proto := assigned_prototype req_body in
      let flowtest := assign "name" (read updateFlowTest proto "name") flowtest in
      let flowtest :=
        assign "flowData" (read updateFlowTest proto "flowData") flowtest in
      result <-- wcall (Save FlowTests flowtest) (repo_save S FlowTests flowtest) ;;
      wret (json (Obj result))
  | None => wret (not_found FlowTests id)
  end.

(** GET /api/v1/flowtest/:id *)
Definition get_flowtest (S : Store) (id : string) : W Reply :=
  get_by_id S FlowTests id.

(** DELETE /api/v1/flowtest/:id *)
Definition delete_flowtest (S : Store) (id : string) : W Reply :=
  delete_by_id S FlowTests id.

(** GET /api/v1/flowtest *)
Definition get_flowtests (S : Store) : W Reply := list_all S FlowTests.

(** DELETE /api/v1/collection/:id *)
Definition delete_collection (S : Store) (id : string) : W Reply :=
  delete_by_id S Collections id.

(** GET /api/v1/collection *)
Definition get_collections (S : Store) : W Reply := list_all S Collections.

(** GET /api/v1/collection/:id *)
Definition get_collection (S : Store) (id : string) : W Reply :=
  get_by_id S Collections id.

(** POST /api/v1/authkey *)
Definition post_authkey (S : Store) (req_body : value) : W Reply :=
  create S AuthKeys req_body.

(** GET /api/v1/authkey *)
Definition get_authkeys (S : Store) : W Reply := list_all S AuthKeys.

(** DELETE /api/v1/authkey/:id *)
Definition delete_authkey (S : Store) (id : string) : W Reply :=
  delete_by_id S AuthKeys id.

(** POST /api/v1/flowtest/ai, lines 299-305. *)
Definition post_flowtest_ai (S : Store) (req_body : value) : W Reply :=
  collection <-- wlift (get_prop req_body "collection") ;;
  cmd <-- wlift (get_prop req_body "cmd") ;;
  nodes <-- wcall (Generate collection cmd) (generate S collection cmd) ;;
  wret (json nodes).

(** [rows.find((row) => row.name === name)] *)
Definition find_named (name : string) (rows : list Entity) : option Entity :=
  List.find (fun row => strict_eq_str (prop row "name") name) rows.

Definition sample_collection_name : string := "Swagger Petstore - OpenAPI 3.0".
Definition sample_collection_path : value :=
  Str "src/samples/collection/petstore.yaml".
Definition sample_flow_name : string := "flow_1".
Definition sample_flow_path : value := Str "src/samples/flow/flow_1.json".

(** [initSamples()], lines 70-75: the sample collection. *)
Definition init_sample_collection (P : Platform) (S : Store) : W unit :=
  collections <-- wcall (Find Collections) (repo_find S Collections) ;;
  match find_named sample_collection_name collections with
  | None =>
      _ <-- from_platform (createCollection P sample_collection_path) ;;
      wret tt
  | Some _ => wret tt
  end.

(** [initSamples()], lines 77-91: the sample flow. *)
Definition init_sample_flow (P : Platform) (S : Store) : W unit :=
  flowtests <-- wcall (Find FlowTests) (repo_find S FlowTests) ;;
  match find_named sample_flow_name flowtests with
  | None =>
      flowData <-- wcall (Core (ERead sample_flow_path))
                         (readFileSync P sample_flow_path) ;;
      let newFlowTestBody :=
        Obj [("name", Str sample_flow_name); ("flowData", Str flowData)] in
      let newFlowTest := Object_assign (new_entity S FlowTests) newFlowTestBody in
      _ <-- wcall (Save FlowTests newFlowTest) (repo_save S FlowTests newFlowTest) ;;
      wret tt
  | Some _ => wret tt
  end.

(** [initSamples()], lines 69-92. *)
Definition initSamples (P : Platform) (S : Store) : W unit :=
  _ <-- init_sample_collection P S ;;
  init_sample_flow P S.

(** An object whose property names are pairwise distinct, as [JSON.parse]
    builds them. *)
Definition distinct_keys (props : list (string * value)) : Prop :=
  NoDup (map fst props).

(** ** A store double *)

Module MockStore.

Definition has_id (id : string) (row : Entity) : bool :=
  strict_eq_str (prop row "id") id.

(** A store that holds fixed rows, gives every saved entity the id it came
    with or else 'n3w', and hands back what it is asked to remove. *)
Definition of_rows (rows : Table -> list Entity) : Store :=
  {| repo_find := fun t => inr (rows t);
     repo_findOneBy := fun t id => inr (List.find (has_id id) (rows t));
     repo_save := fun t e =>
       inr (match lookup "id" e with
            | Some _ => e
            | None => assign "id" (Str "n3w") e
            end);
     repo_remove := fun t e => inr e;
     new_entity := fun _ => [];
     generate := fun _ _ => inr (Arr []) |}.

(** A store whose every repository call fails. *)
Definition down (e : Error) : Store :=
  {| repo_find := fun _ => inl e;
     repo_findOneBy := fun _ _ => inl e;
     repo_save := fun _ _ => inl e;
     repo_remove := fun _ _ => inl e;
     new_entity := fun _ => [];
     generate := fun _ _ => inl e |}.

Definition flow_a : Entity :=
  [("id", Str "a1"); ("name", Str "flow_1"); ("flowData", Str "{}");
   ("createdDate", Str "2024-01-01")].

Definition petstore_row : Entity :=
  [("id", Str "c1"); ("name", Str "Swagger Petstore - OpenAPI 3.0");
   ("collection", Str "openapi: 3.0.2"); ("nodes", Str "[]")].

Definition seeded (t : Table) : list Entity :=
  match t with
  | FlowTests => [flow_a]
  | Collections => [petstore_row]
  | AuthKeys => []
  end.

Definition empty (t : Table) : list Entity := [].

(** The sample collection is there, the sample flow is not. *)
Definition without_flows (t : Table) : list Entity :=
  match t with
  | Collections => [petstore_row]
  | _ => []
  end.

End MockStore.

(** ** Calls that returned *)

Definition is_ok {A} (r : Error + A) : bool :=
  match r with
  | inr _ => true
  | inl _ => false
  end.

(** Whether the platform call that an event records returned. *)
Definition returned (P : Platform) (ev : Event) : bool :=
  match ev with
  | EFetch url => is_ok (fetch P url)
  | EAxios options => is_ok (axios P options)
  | ERead path => is_ok (readFileSync P path)
  | EValidate path => is_ok (validate P path)
  | EResolve api => is_ok (resolveRefs P api)
  | EParse resolved => is_ok (parse P resolved)
  | ESave entity => is_ok (save P entity)
  end.

(** Every call of the trace but the last returned: nothing was called after
    a call that threw. *)
Fixpoint stops_at_first_failure (P : Platform) (t : list Event) : bool :=
  match t with
  | [] => true
  | ev :: rest =>
      match rest with
      | [] => true
      | _ :: _ => returned P ev && stops_at_first_failure P rest
      end
  end.

(** ** A server double *)

Module MockServer.

Definition circular : Error :=
  TypeError "Converting circular structure to JSON".

(** An express on node: the request objects of [Mock.clientRequest] stand
    for node's, which are circular; every other value serialises. *)
Definition express : Express :=
  {| statuses := fun n =>
       if n =? 200 then Some "OK"
       else if n =? 404 then Some "Not Found"
       else if n =? 500 then Some "Internal Server Error"
       else None;
     resets_205 := true;
     json_error := fun x =>
       match x with
       | SendValue (Obj [("method", _); ("path", _)]) => Some circular
       | _ => None
       end |}.

(** An axios that also reads [validateStatus] as axios's [settle] does: with
    the option set to [null] every response is resolved. *)
Definition axios_settling (up : Mock.Upstream) (options : value)
  : Error + Response :=
  match up, get_prop options "validateStatus" with
  | Mock.Responds after r, inr Null =>
      if Mock.aborted options after then inl (Mock.CanceledError options)
      else inr r
  | _, _ => Mock.axios_against up options
  end.

Definition platform (up : Mock.Upstream) : Platform :=
  {| fetch := fetch (Mock.platform up);
     axios := axios_settling up;
     readFileSync := readFileSync (Mock.platform up);
     validate := validate (Mock.platform up);
     resolveRefs := resolveRefs (Mock.platform up);
     parse := parse (Mock.platform up);
     stringify := stringify (Mock.platform up);
     save := save (Mock.platform up) |}.

(** A platform whose validator accepts the sample document of start-up. *)
Definition sample_platform : Platform :=
  {| fetch := fetch (Mock.platform (Mock.Responds 30 Sample.ok));
     axios := axios (Mock.platform (Mock.Responds 30 Sample.ok));
     readFileSync := readFileSync (Mock.platform (Mock.Responds 30 Sample.ok));
     validate := Mock.validate_only "src/samples/collection/petstore.yaml"
                                    Mock.petstore;
     resolveRefs := resolveRefs (Mock.platform (Mock.Responds 30 Sample.ok));
     parse := parse (Mock.platform (Mock.Responds 30 Sample.ok));
     stringify := stringify (Mock.platform (Mock.Responds 30 Sample.ok));
     save := save (Mock.platform (Mock.Responds 30 Sample.ok)) |}.



Definition ok_7 : Response :=
  {| status := 200; headers := Obj []; data := Num 7 |}.


End MockServer.

(** ** Running the handler *)

Section Runs.

Variable P : Platform.
Variable app : App.

Lemma put_request_threw (req_body : value) (t : list Event) (e : Error) :
  request_try P app req_body = (t, inl e) ->
  put_request P app req_body = (t, request_catch e).
Proof.
  intros H. unfold put_request. rewrite H. reflexivity.
Qed.

Lemma request_try_prepare_threw (req_body : value) (t : list Event) (e : Error) :
  prepare_body P req_body = (t, inl e) ->
  request_try P app req_body = (t, inl e).
Proof.
  intros H. unfold request_try, bind. rewrite H. reflexivity.
Qed.


Lemma request_try_resolved (req_body prepared : value) (t : list Event)
    (result : Response) :
  prepare_body P req_body = (t, inr prepared) ->
  axios P (make_options app prepared) = inr result ->
  request_try P app req_body
  = ((t ++ [EAxios (make_options app prepared)])%list,
     inr (SiteResolved,
          {| statusCode := 200; body := SendValue (data result) |})).
Proof.
  intros Hp Ha. unfold request_try, bind, call, ret. rewrite Hp, Ha. reflexivity.
Qed.


End Runs.

(** ** The arms of the [catch] *)

Lemma catch_canceled (e : Error) :
  code_is e "ERR_CANCELED" = true ->
  request_catch e = (SiteCanceled, {| statusCode := 408; body := SendError e |}).
Proof.
  intros H. unfold request_catch. now rewrite H.
Qed.

Lemma catch_response (e : Error) (r : Response) :
  code_is e "ERR_CANCELED" = false ->
  response e = Some r ->
  request_catch e
  = (SiteResponse, {| statusCode := status r; body := SendValue (data r) |}).
Proof.
  intros Hc Hr. unfold request_catch. now rewrite Hc, Hr.
Qed.

Lemma catch_request (e : Error) (q : value) :
  code_is e "ERR_CANCELED" = false ->
  response e = None ->
  request e = Some q ->
  request_catch e = (SiteRequest, {| statusCode := 503; body := SendValue q |}).
Proof.
  intros Hc Hr Hq. unfold request_catch. now rewrite Hc, Hr, Hq.
Qed.

Lemma catch_message (e : Error) :
  code_is e "ERR_CANCELED" = false ->
  response e = None ->
  request e = None ->
  truthy_message e = true ->
  request_catch e
  = (SiteMessage, {| statusCode := 400; body := SendValue (message_text e) |}).
Proof.
  intros Hc Hr Hq Hm. unfold request_catch. now rewrite Hc, Hr, Hq, Hm.
Qed.

Lemma catch_other (e : Error) :
  code_is e "ERR_CANCELED" = false ->
  response e = None ->
  request e = None ->
  truthy_message e = false ->
  request_catch e = (SiteOther, {| statusCode := 500; body := SendError e |}).
Proof.
  intros Hc Hr Hq Hm. unfold request_catch. now rewrite Hc, Hr, Hq, Hm.
Qed.


(** ** Outcome classification of the proxy *)

Section Sends.

Variable X : Express.

Lemma finish_valid (n : Z) (chunk : Body) :
  100 <= n <= 999 ->
  finish X n chunk
  = inr {| answer_status := n;
           answer_body := if bodyless X n then Empty else chunk |}.
Proof.
  intros Hn. unfold finish.
  destruct (n <? 100) eqn:Hlo; [apply Z.ltb_lt in Hlo; lia |].
  destruct (999 <? n) eqn:Hhi; [apply Z.ltb_lt in Hhi; lia |].
  reflexivity.
Qed.

(** A value that is not a lone number and that serialises goes out under
    the status that was set. *)
Lemma express_send_value (n : Z) (v : value) :
  (forall m, v <> Num m) ->
  json_error X (SendValue v) = None ->
  100 <= n <= 999 ->
  express_send X {| statusCode := n; body := SendValue v |}
  = inr {| answer_status := n;
           answer_body := if bodyless X n then Empty
                          else chunk_of (SendValue v) |}.
Proof.
  intros Hnum Hjson Hn. unfold express_send. simpl.
  destruct v; try (rewrite Hjson); simpl; try (now apply finish_valid).
  now elim (Hnum n0).
Qed.

Lemma express_send_error (n : Z) (e : Error) :
  json_error X (SendError e) = None ->
  100 <= n <= 999 ->
  express_send X {| statusCode := n; body := SendError e |}
  = inr {| answer_status := n;
           answer_body := if bodyless X n then Empty
                          else JsonOf (SendError e) |}.
Proof.
  intros Hjson Hn. unfold express_send. simpl. rewrite Hjson.
  now apply finish_valid.
Qed.

Lemma serve_answered (P : Platform) (app : App) (req_body : value)
    (t : list Event) (site : Site) (sending : Reply) (a : Answer) :
  put_request P app req_body = (t, (site, sending)) ->
  express_send X sending = inr a ->
  serve_request X P app req_body = (t, Answered a).
Proof.
  intros Hp Hs. unfold serve_request. now rewrite Hp, Hs.
Qed.

(** A send of the [catch] that throws leaves the caller without an
    answer. *)
Lemma serve_catch_threw (P : Platform) (app : App) (req_body : value)
    (t : list Event) (e thrown : Error) :
  request_try P app req_body = (t, inl e) ->
  express_send X (snd (request_catch e)) = inl thrown ->
  serve_request X P app req_body = (t, Unanswered thrown).
Proof.
  intros Ht Hs. unfold serve_request.
  rewrite (put_request_threw P app req_body t e Ht).
  destruct (request_catch e) as [site sending] eqn:Hc. simpl in Hs.
  rewrite Hs.
  destruct site; try reflexivity.
  unfold request_catch in Hc.
  destruct (code_is e "ERR_CANCELED"); [discriminate |].
  destruct (response e); [discriminate |].
  destruct (request e); [discriminate |].
  destruct (truthy_message e); discriminate.
Qed.

Lemma serve_catch_answered (P : Platform) (app : App) (req_body : value)
    (t : list Event) (e : Error) (a : Answer) :
  request_try P app req_body = (t, inl e) ->
  express_send X (snd (request_catch e)) = inr a ->
  serve_request X P app req_body = (t, Answered a).
Proof.
  intros Ht Hs.
  apply (serve_answered P app req_body t (fst (request_catch e))
           (snd (request_catch e)) a); [| exact Hs].
  rewrite (put_request_threw P app req_body t e Ht).
  now destruct (request_catch e).
Qed.

(** What the caller receives when axios rejected with a response. *)
Lemma serve_response (P : Platform) (app : App) (req_body : value)
    (t : list Event) (e : Error) (r : Response) :
  request_try P app req_body = (t, inl e) ->
  code_is e "ERR_CANCELED" = false ->
  response e = Some r ->
  (forall n, data r <> Num n) ->
  json_error X (SendValue (data r)) = None ->
  100 <= status r <= 999 ->
  serve_request X P app req_body
  = (t, Answered {| answer_status := status r;
                    answer_body := if bodyless X (status r) then Empty
                                   else chunk_of (SendValue (data r)) |}).
Proof.
  intros Ht Hc Hr Hnum Hjson Hn.
  apply (serve_catch_answered P app req_body t e); [exact Ht |].
  rewrite (catch_response e r Hc Hr). simpl.
  now apply express_send_value.
Qed.

(** What the caller receives when axios resolved. *)
Lemma serve_resolved (P : Platform) (app : App) (req_body prepared : value)
    (t : list Event) (result : Response) :
  prepare_body P req_body = (t, inr prepared) ->
  axios P (make_options app prepared) = inr result ->
  (forall n, data result <> Num n) ->
  json_error X (SendValue (data result)) = None ->
  serve_request X P app req_body
  = ((t ++ [EAxios (make_options app prepared)])%list,
     Answered {| answer_status := 200;
                 answer_body := chunk_of (SendValue (data result)) |}).
Proof.
  intros Hp Ha Hnum Hjson.
  apply (serve_answered P app req_body _ SiteResolved
           {| statusCode := 200; body := SendValue (data result) |}).
  - unfold put_request.
    now rewrite (request_try_resolved P app req_body prepared t result Hp Ha).
  - rewrite (express_send_value 200 (data result) Hnum Hjson) by lia.
    reflexivity.
Qed.

End Sends.




(** C2, as the code has it.  The outcome is decided by the first condition
    that holds, in this order: the call resolved (200 and the result's
    data); the error's code is ERR_CANCELED (408 and the error); the error
    carries a response (its status and data); it carries a request (the 503
    arm, whose send is given the request object and answers 503 if that
    object serialises); it has a non-empty message (400 and the message);
    anything else (500 and the error).  Where the value sent is not a lone
    number and serialises, the caller receives that status and that
    value. *)
Theorem outcome_priority_order (X : Express) (P : Platform) (app : App)
    (req_body : value) :
  (forall t prepared result,
      prepare_body P req_body = (t, inr prepared) ->
      axios P (make_options app prepared) = inr result ->
      (forall n, data result <> Num n) ->
      json_error X (SendValue (data result)) = None ->
      snd (serve_request X P app req_body)
      = Answered {| answer_status := 200;
                    answer_body := chunk_of (SendValue (data result)) |})
  /\
  (forall e,
      snd (request_try P app req_body) = inl e ->
      (code_is e "ERR_CANCELED" = true ->
       json_error X (SendError e) = None ->
       snd (serve_request X P app req_body)
       = Answered {| answer_status := 408;
                     answer_body := JsonOf (SendError e) |})
      /\
      (code_is e "ERR_CANCELED" = false ->
       forall r, response e = Some r ->
       (forall n, data r <> Num n) ->
       json_error X (SendValue (data r)) = None ->
       100 <= status r <= 999 ->
       snd (serve_request X P app req_body)
       = Answered {| answer_status := status r;
                     answer_body := if bodyless X (status r) then Empty
                                    else chunk_of (SendValue (data r)) |})
      /\
      (code_is e "ERR_CANCELED" = false -> response e = None ->
       forall q, request e = Some q ->
       snd (put_request P app req_body)
       = (SiteRequest, {| statusCode := 503; body := SendValue q |})
       /\ snd (serve_request X P app req_body)
          = match express_send X {| statusCode := 503; body := SendValue q |} with
            | inr a => Answered a
            | inl thrown => Unanswered thrown
            end)
      /\
      (code_is e "ERR_CANCELED" = false -> response e = None ->
       request e = None -> truthy_message e = true ->
       exists m,
         message e = Some m
         /\ snd (serve_request X P app req_body)
            = Answered {| answer_status := 400; answer_body := Text m |})
      /\
      (code_is e "ERR_CANCELED" = false -> response e = None ->
       request e = None -> truthy_message e = false ->
       json_error X (SendError e) = None ->
       snd (serve_request X P app req_body)
       = Answered {| answer_status := 500;
                     answer_body := JsonOf (SendError e) |})).
Proof.
  split.
  - intros t prepared result Hp Ha Hnum Hjson.
    now rewrite (serve_resolved X P app req_body prepared t result Hp Ha Hnum Hjson).
  - intros e He.
    destruct (request_try P app req_body) as [t r] eqn:Ht.
    simpl in He. subst r.
    split; [| split; [| split; [| split]]].
    + intros Hc Hjson.
      rewrite (serve_catch_answered X P app req_body t e
                 {| answer_status := 408;
                    answer_body := JsonOf (SendError e) |} Ht);
        [reflexivity |].
      rewrite (catch_canceled e Hc). simpl.
      now rewrite (express_send_error X 408 e Hjson) by lia.
    + intros Hc r Hr Hnum Hjson Hn.
      now rewrite (serve_response X P app req_body t e r Ht Hc Hr Hnum Hjson Hn).
    + intros Hc Hr q Hq.
      rewrite (put_request_threw P app req_body t e Ht).
      rewrite (catch_request e q Hc Hr Hq). split; [reflexivity |].
      destruct (express_send X {| statusCode := 503; body := SendValue q |})
        as [thrown | a] eqn:Hs.
      * rewrite (serve_catch_threw X P app req_body t e thrown Ht);
          [reflexivity |].
        now rewrite (catch_request e q Hc Hr Hq).
      * rewrite (serve_catch_answered X P app req_body t e a Ht);
          [reflexivity |].
        now rewrite (catch_request e q Hc Hr Hq).
    + intros Hc Hr Hq Hm.
      unfold truthy_message in Hm.
      destruct (message e) as [m |] eqn:Hmsg; [| discriminate].
      exists m. split; [reflexivity |].
      rewrite (serve_catch_answered X P app req_body t e
                 {| answer_status := 400; answer_body := Text m |} Ht);
        [reflexivity |].
      rewrite catch_message; try assumption.
      * unfold message_text. rewrite Hmsg. reflexivity.
      * unfold truthy_message. now rewrite Hmsg.
    + intros Hc Hr Hq Hm Hjson.
      rewrite (serve_catch_answered X P app req_body t e
                 {| answer_status := 500;
                    answer_body := JsonOf (SendError e) |} Ht);
        [reflexivity |].
      rewrite (catch_other e Hc Hr Hq Hm). simpl.
      now rewrite (express_send_error X 500 e Hjson) by lia.
Qed.

(** C2 fails as stated, twice.  On a refused connection the handler gives
    its send the request object, not the low-level cause as text, and as
    node's request objects do not serialise the caller is left without any
    answer; and a request with no header mapping ends in a fifth outcome,
    400, which is none of the four the claim lists. *)
Lemma transport_failure_not_diagnostic_text :
  snd (put_request (Mock.platform (Mock.Refuses 5 "ECONNREFUSED")) new_App
                   Sample.get_pet)
  = (SiteRequest,
     {| statusCode := 503;
        body := SendValue (Obj [("method", Str "get");
                                ("path", Str "http://upstream/pet/7")]) |})
  /\ snd (serve_request MockServer.express
                        (Mock.platform (Mock.Refuses 5 "ECONNREFUSED"))
                        new_App Sample.get_pet)
     = Unanswered MockServer.circular
  /\ serve_request MockServer.express
                   (Mock.platform (Mock.Responds 30 Sample.ok)) new_App
                   (Obj [("url", Str "http://upstream/pet/7")])
     = ([],
        Answered
          {| answer_status := 400;
             answer_body :=
               Text "Cannot read properties of undefined (reading 'Content-type')" |}).
Proof.
  repeat split.
Qed.




(** ** Property lists *)

Lemma lookup_assign_same (k : string) (v : value) (props : list (string * value)) :
  lookup k (assign k v props) = Some v.
Proof.
  induction props as [| [k' v'] rest IH]; simpl.
  - now rewrite String.eqb_refl.
  - destruct (String.eqb k k') eqn:E; simpl; rewrite E; [reflexivity | exact IH].
Qed.

Lemma lookup_assign_other (k k' : string) (v : value)
    (props : list (string * value)) :
  String.eqb k k' = false ->
  lookup k (assign k' v props) = lookup k props.
Proof.
  intros Hne. induction props as [| [k0 v0] rest IH]; simpl.
  - now rewrite Hne.
  - destruct (String.eqb k' k0) eqn:E; simpl.
    + apply String.eqb_eq in E. subst k0. now rewrite Hne.
    + now rewrite IH.
Qed.

(** Line 185 comes after the spread: the signal is the App's, whatever the
    request body holds under that name. *)
Lemma make_options_signal (app : App) (req_body : value) :
  get_prop (make_options app req_body) "signal"
  = inr (SignalV (timeout_or_0 app)).
Proof.
  unfold make_options, get_prop. now rewrite lookup_assign_same.
Qed.

(** Every other option is the request body's own property. *)
Lemma make_options_other (app : App) (props : list (string * value)) (k : string) :
  String.eqb k "signal" = false ->
  get_prop (make_options app (Obj props)) k = get_prop (Obj props) k.
Proof.
  intros Hne. unfold make_options, get_prop. simpl.
  now rewrite lookup_assign_other.
Qed.

(** A value with a defined [headers] property is a parsed object. *)
Lemma headers_defined_is_object (x hdrs : value) :
  get_prop x "headers" = inr hdrs ->
  hdrs <> Undefined ->
  exists props, x = Obj props.
Proof.
  destruct x; simpl; intros H Hd; try (injection H as <-; now elim Hd);
    try discriminate.
  now exists props.
Qed.

(** Reading a second property of a value that already yielded one. *)
Lemma get_prop_again (x v : value) (k k' : string) :
  get_prop x k = inr v -> exists v', get_prop x k' = inr v'.
Proof.
  destruct x; simpl; intros H; try discriminate; eauto.
Qed.

(** ** The multipart branch *)

Section Prepare.

Variable P : Platform.

Lemma prepare_body_plain (req_body : value) :
  is_multipart req_body = false ->
  (exists e, prepare_body P req_body = ([], inl e))
  \/ prepare_body P req_body = ([], inr req_body).
Proof.
  unfold is_multipart, prepare_body, bind, lift, ret.
  destruct (get_prop req_body "headers") as [e | hdrs]; [left; eauto |].
  destruct (get_prop hdrs "Content-type") as [e | ct]; [left; eauto |].
  intros ->. now right.
Qed.

Lemma prepare_body_multipart (req_body : value) :
  is_multipart req_body = true ->
  exists props,
    req_body = Obj props /\
    ((exists e, prepare_body P req_body = ([], inl e))
     \/ (exists d v,
           get_prop req_body "data" = inr d /\ get_prop d "value" = inr v /\
           ((exists e, fetch P v = inl e
                       /\ prepare_body P req_body = ([EFetch v], inl e))
            \/ (exists bytes k n,
                  fetch P v = inr bytes
                  /\ get_prop d "key" = inr k /\ get_prop d "name" = inr n
                  /\ prepare_body P req_body
                     = ([EFetch v],
                        inr (Obj (assign "data"
                                    (FormDataV [(k, BlobV bytes, n)])
                                    props))))))).
Proof.
  unfold is_multipart. intros Hm.
  destruct (get_prop req_body "headers") as [e | hdrs] eqn:Hh; [discriminate |].
  destruct (get_prop hdrs "Content-type") as [e | ct] eqn:Hc; [discriminate |].
  assert (Hobj : exists props, req_body = Obj props).
  { apply (headers_defined_is_object req_body hdrs Hh).
    intros ->. discriminate. }
  destruct Hobj as [props ->]. exists props. split; [reflexivity |].
  unfold prepare_body, convertBase64ToBlob, bind, lift, call, ret.
  rewrite Hh, Hc, Hm.
  destruct (get_prop (Obj props) "data") as [e | d] eqn:Hd; [left; eauto |].
  destruct (get_prop d "value") as [e | v] eqn:Hv; [left; eauto |].
  right. exists d, v. split; [reflexivity | split; [exact Hv |]].
  destruct (fetch P v) as [e | bytes] eqn:Hf.
  - left. exists e. now split.
  - right.
    destruct (get_prop_again d v "value" "key" Hv) as [k Hk].
    destruct (get_prop_again d v "value" "name" Hv) as [n Hn].
    exists bytes, k, n. rewrite Hk, Hn. simpl. auto.
Qed.

(** Preparing the body calls fetch at most once and never axios. *)
Lemma prepare_body_trace (req_body : value) :
  fst (prepare_body P req_body) = []
  \/ exists v, fst (prepare_body P req_body) = [EFetch v].
Proof.
  destruct (is_multipart req_body) eqn:Hm.
  - destruct (prepare_body_multipart req_body Hm)
      as (props & _ & [(e & ->) | (d & v & _ & _ & [(e & _ & ->) | (b & k & n & _ & _ & _ & ->)])]);
      simpl; eauto.
  - destruct (prepare_body_plain req_body Hm) as [(e & ->) | ->]; simpl; auto.
Qed.

End Prepare.

(** Whatever axios is called with carries the App's signal. *)
Lemma axios_called_with_app_signal (P : Platform) (app : App)
    (req_body options : value) :
  In (EAxios options) (fst (put_request P app req_body)) ->
  get_prop options "signal" = inr (SignalV (timeout_or_0 app)).
Proof.
  intros Hin.
  assert (Hopt : exists prepared, options = make_options app prepared).
  { unfold put_request, request_try, bind, call, ret in Hin.
    pose proof (prepare_body_trace P req_body) as Ht.
    destruct (prepare_body P req_body) as [t [e | prepared]]; simpl in *.
    - destruct Ht as [-> | (v & ->)]; simpl in Hin;
        [contradiction | destruct Hin as [Hin | []]; discriminate].
    - exists prepared.
      destruct (axios P (make_options app prepared)); simpl in Hin;
        destruct Ht as [-> | (v & ->)]; simpl in Hin;
        repeat (destruct Hin as [Hin | Hin]; try discriminate;
                try (injection Hin as <-; reflexivity));
        contradiction. }
  destruct Hopt as [prepared ->]. apply make_options_signal.
Qed.

(** The calls of one run: those of the body preparation, then axios once if
    the preparation did not throw. *)
Lemma put_request_trace (P : Platform) (app : App) (req_body : value) :
  fst (put_request P app req_body)
  = (fst (prepare_body P req_body)
     ++ match snd (prepare_body P req_body) with
        | inr prepared => [EAxios (make_options app prepared)]
        | inl _ => []
        end)%list.
Proof.
  unfold put_request, request_try, bind, call, ret.
  destruct (prepare_body P req_body) as [t [e | prepared]]; simpl.
  - now rewrite app_nil_r.
  - destruct (axios P (make_options app prepared)); reflexivity.
Qed.

(** A multipart request that reaches axios does so with a one-part form. *)
Lemma multipart_options (P : Platform) (app : App) (req_body options : value) :
  is_multipart req_body = true ->
  In (EAxios options) (fst (put_request P app req_body)) ->
  exists d v bytes k n,
    get_prop req_body "data" = inr d /\ get_prop d "value" = inr v
    /\ fetch P v = inr bytes
    /\ get_prop d "key" = inr k /\ get_prop d "name" = inr n
    /\ fst (put_request P app req_body) = [EFetch v; EAxios options]
    /\ get_prop options "data" = inr (FormDataV [(k, BlobV bytes, n)]).
Proof.
  intros Hm Hin. rewrite put_request_trace in *.
  destruct (prepare_body_multipart P req_body Hm)
    as (props & -> & [(e & He) | (d & v & Hd & Hv & [(e & Hf & He) | (bytes & k & n & Hf & Hk & Hn & He)])]);
    rewrite He in *; simpl in *.
  - contradiction.
  - destruct Hin as [Hin | []]. discriminate.
  - destruct Hin as [Hin | [Hin | []]]; [discriminate |].
    injection Hin as <-.
    exists d, v, bytes, k, n. repeat split; auto.
    unfold make_options. simpl.
    rewrite lookup_assign_other by reflexivity.
    now rewrite lookup_assign_same.
Qed.

(** A request that is not multipart reaches axios as it came, plus the
    signal. *)
Lemma plain_options (P : Platform) (app : App) (req_body options : value) :
  is_multipart req_body = false ->
  In (EAxios options) (fst (put_request P app req_body)) ->
  options = make_options app req_body
  /\ fst (put_request P app req_body) = [EAxios options]
  /\ get_prop options "data" = get_prop req_body "data".
Proof.
  intros Hm Hin. rewrite put_request_trace in *.
  destruct (prepare_body_plain P req_body Hm) as [(e & He) | He];
    rewrite He in *; simpl in *; [contradiction |].
  destruct Hin as [Hin | []]. injection Hin as <-.
  split; [reflexivity | split; [reflexivity |]].
  unfold prepare_body, bind, lift, ret in He.
  destruct (get_prop req_body "headers") as [e | hdrs] eqn:Hh; [discriminate |].
  destruct (headers_defined_is_object req_body hdrs Hh) as [props ->].
  - intros ->. discriminate.
  - now apply make_options_other.
Qed.

(** ** The deadline *)

(** C3, as the code has it.  The deadline is not a parameter of the call:
    whatever the request holds, axios is given the signal of the App's own
    timeout (60000 ms as constructed); and when the call is rejected as
    canceled, the handler answers 408 with the error. *)
Theorem deadline_is_app_timeout (P : Platform) (app : App) (req_body : value) :
  (forall options,
      In (EAxios options) (fst (put_request P app req_body)) ->
      get_prop options "signal" = inr (SignalV (timeout_or_0 app)))
  /\
  (forall e,
      snd (request_try P app req_body) = inl e ->
      code_is e "ERR_CANCELED" = true ->
      snd (put_request P app req_body)
      = (SiteCanceled, {| statusCode := 408; body := SendError e |}))
  /\ timeout_or_0 new_App = 60000.
Proof.
  split; [| split; [| reflexivity]].
  - intros options. apply axios_called_with_app_signal.
  - intros e He Hc. unfold put_request.
    destruct (request_try P app req_body) as [t r]. simpl in He. subst r.
    simpl. now apply catch_canceled.
Qed.

(** An upstream that takes 70 s is cut off by the App's 60 s. *)
Lemma deadline_is_app_timeout_witness :
  snd (put_request (Mock.platform (Mock.Responds 70000 Sample.ok)) new_App
                   Sample.get_pet)
  = (SiteCanceled,
     {| statusCode := 408;
        body := SendError (Mock.CanceledError
                             (make_options new_App Sample.get_pet)) |}).
Proof.
  apply (proj1 (proj2 (deadline_is_app_timeout
                         (Mock.platform (Mock.Responds 70000 Sample.ok))
                         new_App Sample.get_pet)));
    reflexivity.
Defined.

(** C3 fails as stated.  A caller asking for 10 ms against an upstream that
    takes 200 ms is not timed out: its request goes out under the App's
    60000 ms and is answered 200.  And no two calls to one App can be given
    different deadlines. *)
Lemma per_call_deadline_ignored :
  put_request (Mock.platform (Mock.Responds 200 Sample.ok)) new_App
              Sample.impatient
  = ([EAxios (Obj [("method", Str "get"); ("url", Str "http://upstream/pet/7");
                   ("headers", Obj []); ("signal", SignalV 60000)])],
     (SiteResolved,
      {| statusCode := 200; body := SendValue (data Sample.ok) |}))
  /\ ~ (exists P app req1 req2 options1 options2,
          In (EAxios options1) (fst (put_request P app req1))
          /\ In (EAxios options2) (fst (put_request P app req2))
          /\ get_prop options1 "signal" <> get_prop options2 "signal").
Proof.
  split; [reflexivity |].
  intros (P & app & req1 & req2 & o1 & o2 & H1 & H2 & Hne).
  apply Hne.
  rewrite (axios_called_with_app_signal P app req1 o1 H1).
  now rewrite (axios_called_with_app_signal P app req2 o2 H2).
Qed.

(** ** Multipart bodies *)

(** The two ways a multipart request with a readable data reference runs. *)
Lemma multipart_run (P : Platform) (app : App) (req_body d v : value) :
  is_multipart req_body = true ->
  get_prop req_body "data" = inr d ->
  get_prop d "value" = inr v ->
  (forall bytes,
      fetch P v = inr bytes ->
      exists k n options,
        get_prop d "key" = inr k /\ get_prop d "name" = inr n
        /\ fst (put_request P app req_body) = [EFetch v; EAxios options]
        /\ get_prop options "data" = inr (FormDataV [(k, BlobV bytes, n)]))
  /\
  (forall e,
      fetch P v = inl e ->
      put_request P app req_body = ([EFetch v], request_catch e)).
Proof.
  intros Hm Hd Hv.
  destruct (prepare_body_multipart P req_body Hm)
    as (props & -> & [(e0 & He) | (d' & v' & Hd' & Hv' & Hcases)]).
  { exfalso. unfold prepare_body, convertBase64ToBlob, bind, lift, call, ret in He.
    unfold is_multipart in Hm.
    destruct (get_prop (Obj props) "headers") as [e | hdrs]; [discriminate |].
    destruct (get_prop hdrs "Content-type") as [e | ct]; [discriminate |].
    rewrite Hm, Hd, Hv in He.
    destruct (fetch P v); [discriminate |].
    destruct (get_prop_again d v "value" "key" Hv) as [k Hk].
    destruct (get_prop_again d v "value" "name" Hv) as [n Hn].
    rewrite Hk, Hn in He. discriminate. }
  rewrite Hd in Hd'. injection Hd' as <-.
  rewrite Hv in Hv'. injection Hv' as <-.
  split.
  - intros bytes Hf.
    destruct Hcases as [(e' & Hf' & _) | (bytes' & k & n & Hf' & Hk & Hn & He)];
      rewrite Hf in Hf'; [discriminate | injection Hf' as <-].
    exists k, n.
    exists (make_options app
              (Obj (assign "data" (FormDataV [(k, BlobV bytes, n)]) props))).
    split; [exact Hk | split; [exact Hn |]].
    rewrite put_request_trace, He. simpl. split; [reflexivity |].
    rewrite lookup_assign_other by reflexivity.
    now rewrite lookup_assign_same.
  - intros e Hf.
    destruct Hcases as [(e' & Hf' & He) | (bytes & k & n & Hf' & _)];
      rewrite Hf in Hf'; [injection Hf' as <- | discriminate].
    apply put_request_threw. now apply request_try_prepare_threw.
Qed.

(** The [TypeError] of a failed fetch falls through to the 400 arm. *)
Lemma catch_TypeError (msg : string) :
  msg <> "" ->
  request_catch (TypeError msg)
  = (SiteMessage, {| statusCode := 400; body := SendValue (Str msg) |}).
Proof.
  intros Hne.
  unfold request_catch, TypeError, truthy_message, message_text, code_is. simpl.
  destruct (String.eqb msg "") eqn:E; [| reflexivity].
  apply String.eqb_eq in E. contradiction.
Qed.

(** C6.  In a multipart request the data reference of the part is fetched
    into a blob before axios is called, and axios then receives the form
    holding that blob; when the fetch throws, axios is never called and the
    error goes to the [catch], which for the [TypeError] of a failed fetch
    answers 400 with its message. *)
Theorem binary_part_decoded_before_call (P : Platform) (app : App)
    (req_body d v : value) :
  is_multipart req_body = true ->
  get_prop req_body "data" = inr d ->
  get_prop d "value" = inr v ->
  (forall bytes,
      fetch P v = inr bytes ->
      exists k n options,
        get_prop d "key" = inr k /\ get_prop d "name" = inr n
        /\ fst (put_request P app req_body) = [EFetch v; EAxios options]
        /\ get_prop options "data" = inr (FormDataV [(k, BlobV bytes, n)]))
  /\
  (forall e,
      fetch P v = inl e ->
      put_request P app req_body = ([EFetch v], request_catch e))
  /\
  (forall msg,
      fetch P v = inl (TypeError msg) -> msg <> "" ->
      put_request P app req_body
      = ([EFetch v],
         (SiteMessage, {| statusCode := 400; body := SendValue (Str msg) |}))).
Proof.
  intros Hm Hd Hv.
  destruct (multipart_run P app req_body d v Hm Hd Hv) as [Hok Hfail].
  split; [exact Hok | split; [exact Hfail |]].
  intros msg Hf Hne. rewrite (Hfail _ Hf). now rewrite catch_TypeError.
Qed.

(** A part whose base64 does not decode: 400 before any call to axios. *)
Lemma binary_part_decoded_before_call_witness :
  put_request (Mock.platform (Mock.Responds 30 Sample.ok)) new_App
              (Sample.upload Sample.corrupt_part)
  = ([EFetch (Str "data:image/png;base64,@@@")],
     (SiteMessage,
      {| statusCode := 400; body := SendValue (Str "fetch failed") |})).
Proof.
  apply (proj2 (proj2 (binary_part_decoded_before_call
                         (Mock.platform (Mock.Responds 30 Sample.ok)) new_App
                         (Sample.upload Sample.corrupt_part)
                         Sample.corrupt_part
                         (Str "data:image/png;base64,@@@")
                         eq_refl eq_refl eq_refl)));
    [reflexivity | discriminate].
Defined.

(** C8, as the code has it.  The request's data is one (key, value, name)
    triple, not a list of parts: when its value is a data reference that
    fetch decodes, the body given to axios is a form of exactly one part,
    which reads back as the triple's key, the decoded bytes and the
    triple's name. *)
Theorem single_part_round_trip (P : Platform) (app : App)
    (req_body d : value) (key url name : string) (bytes : list Byte.byte) :
  is_multipart req_body = true ->
  get_prop req_body "data" = inr d ->
  get_prop d "key" = inr (Str key) ->
  get_prop d "value" = inr (Str url) ->
  get_prop d "name" = inr (Str name) ->
  fetch P (Str url) = inr bytes ->
  exists options,
    fst (put_request P app req_body) = [EFetch (Str url); EAxios options]
    /\ parts_of (option_of options "data")
       = [(Str key, BlobV bytes, Str name)].
Proof.
  intros Hm Hd Hk Hv Hn Hf.
  destruct (multipart_run P app req_body d (Str url) Hm Hd Hv) as (Hok & _).
  destruct (Hok bytes Hf) as (k & n & options & Hk' & Hn' & Ht & Hdata).
  rewrite Hk in Hk'. injection Hk' as <-.
  rewrite Hn in Hn'. injection Hn' as <-.
  exists options. split; [exact Ht |].
  unfold option_of. now rewrite Hdata.
Qed.

Lemma single_part_round_trip_witness :
  exists options,
    fst (put_request (Mock.platform (Mock.Responds 30 Sample.ok)) new_App
                     (Sample.upload Sample.file_part))
    = [EFetch (Str "data:image/png;base64,iVBORw=="); EAxios options]
    /\ parts_of (option_of options "data")
       = [(Str "file", BlobV Mock.png, Str "f.png")].
Proof.
  apply (single_part_round_trip
           (Mock.platform (Mock.Responds 30 Sample.ok)) new_App
           (Sample.upload Sample.file_part) Sample.file_part
           "file" "data:image/png;base64,iVBORw==" "f.png" Mock.png);
    reflexivity.
Defined.

(** C8 fails as stated.  The part list of the example, a text field and a
    binary field named f.png, is not encoded: the handler reads the list's
    [value] property, which is undefined, and the request ends in 400
    without a body having been built; on no platform does axios receive
    the two declared parts.  The text field alone fares no better, its
    value being fetched as if it were a data reference. *)
Lemma part_list_not_encoded :
  put_request (Mock.platform (Mock.Responds 30 Sample.ok)) new_App
              (Sample.upload Sample.part_list)
  = ([EFetch Undefined],
     (SiteMessage,
      {| statusCode := 400; body := SendValue (Str "fetch failed") |}))
  /\ (forall P app options,
        In (EAxios options)
           (fst (put_request P app (Sample.upload Sample.part_list))) ->
        exists bytes,
          parts_of (option_of options "data")
          = [(Undefined, BlobV bytes, Undefined)])
  /\ put_request (Mock.platform (Mock.Responds 30 Sample.ok)) new_App
                 (Sample.upload Sample.text_part)
     = ([EFetch (Str "value")],
        (SiteMessage,
         {| statusCode := 400; body := SendValue (Str "fetch failed") |})).
Proof.
  split; [reflexivity | split; [| reflexivity]].
  intros P app options Hin.
  destruct (multipart_options P app (Sample.upload Sample.part_list) options
              eq_refl Hin)
    as (d & v & bytes & k & n & Hd & Hv & _ & Hk & Hn & _ & Hdata).
  injection Hd as <-. injection Hk as <-. injection Hn as <-.
  exists bytes. unfold option_of. now rewrite Hdata.
Qed.

(** ** Dispatch on the content type *)





(** ** The import *)

Ltac step_import H :=
  match goal with
  | |- context [match ?x with inl _ => _ | inr _ => _ end] =>
      destruct x eqn:H; simpl
  end.

(** A run of the import either ends in the fixed 500, or went through every
    step and answers with what the repository saved. *)
Lemma post_collection_cases (P : Platform) (req_file : value) :
  (snd (post_collection P req_file) = parse_failure
   /\ (fst (post_collection P req_file) = []
       \/ (exists path,
             fst (post_collection P req_file) = [ERead path])
       \/ (exists path e,
             validate P path = inl e
             /\ fst (post_collection P req_file) = [ERead path; EValidate path])
       \/ (exists path api rest,
             validate P path = inr api
             /\ fst (post_collection P req_file)
                = ERead path :: EValidate path :: EResolve api :: rest)))
  \/
  (exists path spec api resolvedSpec resolved parsedNodes info title nodes results,
      get_prop req_file "path" = inr path
      /\ readFileSync P path = inr spec
      /\ validate P path = inr api
      /\ resolveRefs P api = inr resolvedSpec
      /\ get_prop resolvedSpec "resolved" = inr resolved
      /\ parse P resolved = inr parsedNodes
      /\ get_prop api "info" = inr info
      /\ get_prop info "title" = inr title
      /\ stringify P parsedNodes = inr nodes
      /\ save P (Obj [("name", title); ("collection", Str spec); ("nodes", nodes)])
         = inr results
      /\ post_collection P req_file
         = ([ERead path; EValidate path; EResolve api; EParse resolved;
             ESave (Obj [("name", title); ("collection", Str spec);
                         ("nodes", nodes)])],
            {| statusCode := 200; body := SendValue results |})).
Proof.
  unfold post_collection, createCollection, try_catch, bind, lift, call, ret.
  step_import Hpath; [left; auto |].
  step_import Hread; [left; split; eauto |].
  step_import Hval; [left; split; eauto 7 |].
  step_import Hres; [left; split; eauto 8 |].
  step_import Hresolved; [left; split; eauto 8 |].
  step_import Hparse; [left; split; eauto 8 |].
  step_import Hinfo; [left; split; eauto 8 |].
  step_import Htitle; [left; split; eauto 8 |].
  step_import Hjson; [left; split; eauto 8 |].
  step_import Hsave; [left; split; eauto 8 |].
  right. repeat eexists; eauto.
Qed.

Ltac find_resolve Hin :=
  simpl in Hin;
  repeat (destruct Hin as [Hin | Hin];
          [first [discriminate | injection Hin as <-; eauto] |]);
  try contradiction.

(** Resolution is attempted only on what validation returned, right after
    it. *)
Lemma resolve_follows_validate (P : Platform) (req_file api : value) :
  In (EResolve api) (fst (post_collection P req_file)) ->
  exists path rest,
    fst (post_collection P req_file)
    = ERead path :: EValidate path :: EResolve api :: rest
    /\ validate P path = inr api.
Proof.
  unfold post_collection, createCollection, try_catch, bind, lift, call, ret.
  step_import Hpath; [contradiction |].
  step_import Hread; [intros Hin; find_resolve Hin |].
  step_import Hval; [intros Hin; find_resolve Hin |].
  step_import Hres; [intros Hin; find_resolve Hin |].
  step_import Hresolved; [intros Hin; find_resolve Hin |].
  step_import Hparse; [intros Hin; find_resolve Hin |].
  step_import Hinfo; [intros Hin; find_resolve Hin |].
  step_import Htitle; [intros Hin; find_resolve Hin |].
  step_import Hjson; [intros Hin; find_resolve Hin |].
  step_import Hsave; intros Hin; find_resolve Hin.
Qed.

Ltac find_saved Hin :=
  simpl in Hin;
  repeat (destruct Hin as [Hin | Hin]; [try discriminate |]);
  try contradiction.

(** Whatever the repository is asked to save was read, validated, resolved
    and parsed before. *)
Lemma saved_after_all_steps (P : Platform) (req_file entity : value) :
  In (ESave entity) (fst (post_collection P req_file)) ->
  exists path spec api resolvedSpec resolved parsedNodes info title nodes,
    get_prop req_file "path" = inr path
    /\ readFileSync P path = inr spec
    /\ validate P path = inr api
    /\ resolveRefs P api = inr resolvedSpec
    /\ get_prop resolvedSpec "resolved" = inr resolved
    /\ parse P resolved = inr parsedNodes
    /\ get_prop api "info" = inr info
    /\ get_prop info "title" = inr title
    /\ stringify P parsedNodes = inr nodes
    /\ entity = Obj [("name", title); ("collection", Str spec); ("nodes", nodes)].
Proof.
  unfold post_collection, createCollection, try_catch, bind, lift, call, ret.
  step_import Hpath; [contradiction |].
  step_import Hread; [intros Hin; find_saved Hin |].
  step_import Hval; [intros Hin; find_saved Hin |].
  step_import Hres; [intros Hin; find_saved Hin |].
  step_import Hresolved; [intros Hin; find_saved Hin |].
  step_import Hparse; [intros Hin; find_saved Hin |].
  step_import Hinfo; [intros Hin; find_saved Hin |].
  step_import Htitle; [intros Hin; find_saved Hin |].
  step_import Hjson; [intros Hin; find_saved Hin |].
  step_import Hsave; intros Hin; find_saved Hin;
    injection Hin as <-; repeat eexists; eassumption.
Qed.

(** Nothing is called after a call that threw. *)
Lemma import_stops (P : Platform) (req_file : value) :
  stops_at_first_failure P (fst (post_collection P req_file)) = true.
Proof.
  unfold post_collection, createCollection, try_catch, bind, lift, call, ret.
  step_import Hpath; [reflexivity |].
  step_import Hread; [reflexivity |].
  step_import Hval; [now rewrite Hread |].
  step_import Hres; [now rewrite Hread, Hval |].
  step_import Hresolved; [now rewrite Hread, Hval |].
  step_import Hparse; [now rewrite Hread, Hval, Hres |].
  step_import Hinfo; [now rewrite Hread, Hval, Hres |].
  step_import Htitle; [now rewrite Hread, Hval, Hres |].
  step_import Hjson; [now rewrite Hread, Hval, Hres |].
  step_import Hsave; now rewrite Hread, Hval, Hres, Hparse.
Qed.

(** C5, as the code has it.  Reference resolution is only ever attempted on
    the document that validation returned; a run either went through every
    step, saving and answering the whole collection, or answers 500 with
    the fixed text 'Failed to parse openapi spec', whatever was thrown; a
    document that fails validation is neither resolved nor saved; nothing is
    called after a call that threw; and the repository is asked to save
    only what was read, validated, resolved and parsed in full. *)
Theorem import_all_or_nothing (P : Platform) (req_file : value) :
  (forall api,
      In (EResolve api) (fst (post_collection P req_file)) ->
      exists path rest,
        fst (post_collection P req_file)
        = ERead path :: EValidate path :: EResolve api :: rest
        /\ validate P path = inr api)
  /\
  (snd (post_collection P req_file) = parse_failure
   \/ exists path spec api resolvedSpec resolved parsedNodes info title nodes
             results,
        get_prop req_file "path" = inr path
        /\ readFileSync P path = inr spec
        /\ validate P path = inr api
        /\ resolveRefs P api = inr resolvedSpec
        /\ get_prop resolvedSpec "resolved" = inr resolved
        /\ parse P resolved = inr parsedNodes
        /\ get_prop api "info" = inr info
        /\ get_prop info "title" = inr title
        /\ stringify P parsedNodes = inr nodes
        /\ save P (Obj [("name", title); ("collection", Str spec); ("nodes", nodes)])
           = inr results
        /\ post_collection P req_file
           = ([ERead path; EValidate path; EResolve api; EParse resolved;
               ESave (Obj [("name", title); ("collection", Str spec);
                           ("nodes", nodes)])],
              {| statusCode := 200; body := SendValue results |}))
  /\
  (forall path spec e,
      get_prop req_file "path" = inr path ->
      readFileSync P path = inr spec ->
      validate P path = inl e ->
      post_collection P req_file = ([ERead path; EValidate path], parse_failure))
  /\ stops_at_first_failure P (fst (post_collection P req_file)) = true
  /\
  (forall entity,
      In (ESave entity) (fst (post_collection P req_file)) ->
      exists path spec api resolvedSpec resolved parsedNodes info title nodes,
        get_prop req_file "path" = inr path
        /\ readFileSync P path = inr spec
        /\ validate P path = inr api
        /\ resolveRefs P api = inr resolvedSpec
        /\ get_prop resolvedSpec "resolved" = inr resolved
        /\ parse P resolved = inr parsedNodes
        /\ get_prop api "info" = inr info
        /\ get_prop info "title" = inr title
        /\ stringify P parsedNodes = inr nodes
        /\ entity
           = Obj [("name", title); ("collection", Str spec); ("nodes", nodes)]).
Proof.
  split; [| split; [| split; [| split]]].
  - intros api. apply resolve_follows_validate.
  - destruct (post_collection_cases P req_file) as [(Hr & _) | Hfull].
    + now left.
    + now right.
  - intros path spec e Hp Hrd Hv.
    unfold post_collection, createCollection, try_catch, bind, lift, call, ret.
    rewrite Hp. simpl. rewrite Hrd. simpl. rewrite Hv. reflexivity.
  - apply import_stops.
  - intros entity. apply saved_after_all_steps.
Qed.

(** A document that fails validation: read, validated, and nothing more. *)
Lemma import_all_or_nothing_witness :
  post_collection (Mock.platform (Mock.Responds 30 Sample.ok))
                  (Obj [("path", Str "uploads/bad.yaml")])
  = ([ERead (Str "uploads/bad.yaml"); EValidate (Str "uploads/bad.yaml")],
     parse_failure).
Proof.
  apply (proj1 (proj2 (proj2 (import_all_or_nothing
                                (Mock.platform (Mock.Responds 30 Sample.ok))
                                (Obj [("path", Str "uploads/bad.yaml")]))))
           (Str "uploads/bad.yaml") "contents of uploads/bad.yaml"
           {| code := None; response := None; request := None;
              message := Some "not a valid Openapi API definition" |});
    reflexivity.
Defined.

(** C5 fails as stated: the validator's error does not reach the caller.
    The answer is 500 with a fixed text, which is neither the error nor its
    message. *)
Lemma import_error_not_verbatim :
  validate (Mock.platform (Mock.Responds 30 Sample.ok))
           (Str "uploads/bad.yaml")
  = inl {| code := None; response := None; request := None;
           message := Some "not a valid Openapi API definition" |}
  /\ snd (post_collection (Mock.platform (Mock.Responds 30 Sample.ok))
                          (Obj [("path", Str "uploads/bad.yaml")]))
     = {| statusCode := 500;
          body := SendValue (Str "Failed to parse openapi spec") |}
  /\ body (snd (post_collection (Mock.platform (Mock.Responds 30 Sample.ok))
                                (Obj [("path", Str "uploads/bad.yaml")])))
     <> SendError {| code := None; response := None; request := None;
                     message := Some "not a valid Openapi API definition" |}
  /\ body (snd (post_collection (Mock.platform (Mock.Responds 30 Sample.ok))
                                (Obj [("path", Str "uploads/bad.yaml")])))
     <> SendValue (Str "not a valid Openapi API definition").
Proof.
  repeat split; discriminate.
Qed.

(** ** Node ids *)

Section NodeIds.

Import CollectionUtil.

Variable node_id : string -> string -> string.

Lemma build_item_ids (item : PathItem) :
  map id (build_item node_id item)
  = map (fun mp => node_id (fst mp) (snd mp))
        (map (fun op => (method op, path item))
             (filter (fun op => negb (callback_only op)) (operations item))).
Proof.
  unfold build_item. rewrite !map_map. reflexivity.
Qed.

(** The ids of the nodes are [node_id] over the declared (method, path)
    pairs, in declaration order. *)
Lemma build_ids (spec : ResolvedSpec) :
  map id (build node_id spec)
  = map (fun mp => node_id (fst mp) (snd mp)) (declared spec).
Proof.
  induction spec as [| item rest IH]; simpl.
  - reflexivity.
  - now rewrite !map_app, IH, build_item_ids.
Qed.

End NodeIds.

(** C9.  Two runs of the builder over specs that declare the same (method,
    path) pairs in the same order, and so two runs over the same spec, give
    nodes with the same ids in the same order, whatever else the operations
    hold. *)
Theorem node_ids_deterministic (node_id : string -> string -> string)
    (spec1 spec2 : CollectionUtil.ResolvedSpec) :
  CollectionUtil.declared spec1 = CollectionUtil.declared spec2 ->
  map CollectionUtil.id (CollectionUtil.build node_id spec1)
  = map CollectionUtil.id (CollectionUtil.build node_id spec2).
Proof.
  intros H. now rewrite !build_ids, H.
Qed.

Lemma node_ids_deterministic_witness :
  map CollectionUtil.id
      (CollectionUtil.build Sample.method_and_path Sample.spec_v1)
  = map CollectionUtil.id
        (CollectionUtil.build Sample.method_and_path Sample.spec_v2).
Proof.
  apply (node_ids_deterministic Sample.method_and_path
           Sample.spec_v1 Sample.spec_v2).
  reflexivity.
Defined.

(** ** More on the proxy *)

Lemma put_request_trace_shape (P : Platform) (app : App) (req_body : value) :
  (is_multipart req_body = false
   /\ (fst (put_request P app req_body) = []
       \/ fst (put_request P app req_body)
          = [EAxios (make_options app req_body)]))
  \/
  (is_multipart req_body = true
   /\ exists props,
        req_body = Obj props
        /\ (fst (put_request P app req_body) = []
            \/ (exists v, fst (put_request P app req_body) = [EFetch v])
            \/ (exists v fd,
                  fst (put_request P app req_body)
                  = [EFetch v;
                     EAxios (make_options app (Obj (assign "data" fd props)))]))).
Proof.
  rewrite put_request_trace.
  destruct (is_multipart req_body) eqn:Hm; [right | left]; split; try reflexivity.
  - destruct (prepare_body_multipart P req_body Hm)
      as (props & -> & [(e & He) | (d & v & _ & _ & [(e & _ & He) | (b & k & n & _ & _ & _ & He)])]);
      exists props; (split; [reflexivity |]); rewrite He; simpl; eauto.
  - destruct (prepare_body_plain P req_body Hm) as [(e & He) | He];
      rewrite He; simpl; auto.
Qed.

(** X1.  One execution calls axios at most once, and after at most one
    fetch; it fetches only when the request is multipart. *)
Theorem proxy_calls_at_most_once (P : Platform) (app : App) (req_body : value) :
  (fst (put_request P app req_body) = []
   \/ (exists options, fst (put_request P app req_body) = [EAxios options])
   \/ (exists url, fst (put_request P app req_body) = [EFetch url])
   \/ (exists url options,
         fst (put_request P app req_body) = [EFetch url; EAxios options]))
  /\ (forall url,
        In (EFetch url) (fst (put_request P app req_body)) ->
        is_multipart req_body = true).
Proof.
  destruct (put_request_trace_shape P app req_body)
    as [(Hm & [Ht | Ht]) | (Hm & props & _ & [Ht | [(v & Ht) | (v & fd & Ht)]])];
    rewrite Ht; split; eauto 6; intros url Hin; simpl in Hin;
    try exact Hm; try contradiction;
    destruct Hin as [Hin | []]; discriminate.
Qed.

(** X2.  A request body without a header mapping is answered 400 with the
    message of the [TypeError], and nothing is called. *)
Theorem proxy_missing_headers (P : Platform) (app : App) (req_body : value) :
  (forall hdrs,
      get_prop req_body "headers" = inr hdrs ->
      hdrs = Undefined \/ hdrs = Null) ->
  exists msg,
    put_request P app req_body
    = ([], (SiteMessage, {| statusCode := 400; body := SendValue (Str msg) |})).
Proof.
  intros H.
  unfold put_request, request_try, prepare_body, try_catch, bind, lift.
  destruct (get_prop req_body "headers") as [e | hdrs] eqn:Hh.
  - destruct req_body; simpl in Hh; try discriminate;
      injection Hh as <-; eexists; reflexivity.
  - destruct (H hdrs eq_refl) as [-> | ->]; eexists; reflexivity.
Qed.

Lemma proxy_missing_headers_witness :
  exists msg,
    put_request (Mock.platform (Mock.Responds 30 Sample.ok)) new_App
                (Obj [("url", Str "http://upstream/pet/7")])
    = ([], (SiteMessage, {| statusCode := 400; body := SendValue (Str msg) |})).
Proof.
  apply (proxy_missing_headers
           (Mock.platform (Mock.Responds 30 Sample.ok)) new_App
           (Obj [("url", Str "http://upstream/pet/7")])).
  intros hdrs H. injection H as <-. now left.
Defined.

(** X3.  A multipart request without data is answered 400 with the message
    of the [TypeError]; nothing is fetched and axios is not called. *)
Theorem multipart_missing_data (P : Platform) (app : App) (req_body : value) :
  is_multipart req_body = true ->
  (forall d, get_prop req_body "data" = inr d -> d = Undefined \/ d = Null) ->
  exists msg,
    put_request P app req_body
    = ([], (SiteMessage, {| statusCode := 400; body := SendValue (Str msg) |})).
Proof.
  intros Hm H. unfold is_multipart in Hm.
  unfold put_request, request_try, prepare_body, try_catch, bind, lift.
  destruct (get_prop req_body "headers") as [e | hdrs]; [discriminate |].
  destruct (get_prop hdrs "Content-type") as [e | ct]; [discriminate |].
  rewrite Hm.
  destruct (get_prop req_body "data") as [e | d] eqn:Hd.
  - destruct req_body; simpl in Hd; try discriminate;
      injection Hd as <-; eexists; reflexivity.
  - destruct (H d eq_refl) as [-> | ->]; eexists; reflexivity.
Qed.

Lemma multipart_missing_data_witness :
  exists msg,
    put_request (Mock.platform (Mock.Responds 30 Sample.ok)) new_App
                (Obj [("url", Str "http://upstream/upload");
                      ("headers", Sample.upload_headers)])
    = ([], (SiteMessage, {| statusCode := 400; body := SendValue (Str msg) |})).
Proof.
  apply (multipart_missing_data
           (Mock.platform (Mock.Responds 30 Sample.ok)) new_App
           (Obj [("url", Str "http://upstream/upload");
                 ("headers", Sample.upload_headers)])).
  - reflexivity.
  - intros d H. injection H as <-. now left.
Defined.

(** X4.  Whatever reaches axios carries every property of the request body
    as it came, except [signal], and except [data] when the request is
    multipart. *)
Theorem proxy_forwards_other_options (P : Platform) (app : App)
    (req_body options : value) (k : string) :
  In (EAxios options) (fst (put_request P app req_body)) ->
  String.eqb k "signal" = false ->
  is_multipart req_body = false \/ String.eqb k "data" = false ->
  get_prop options k = get_prop req_body k.
Proof.
  intros Hin Hsig Hdata.
  destruct (put_request_trace_shape P app req_body)
    as [(Hm & [Ht | Ht]) | (Hm & props & -> & [Ht | [(v & Ht) | (v & fd & Ht)]])];
    rewrite Ht in Hin; simpl in Hin; try contradiction.
  - destruct Hin as [Hin | []]. injection Hin as <-.
    destruct (plain_options P app req_body (make_options app req_body) Hm)
      as (_ & _ & _).
    { rewrite Ht. now left. }
    assert (Hobj : exists props, req_body = Obj props).
    { unfold is_multipart in Hm.
      pose proof (put_request_trace P app req_body) as Htr. rewrite Ht in Htr.
      unfold prepare_body, bind, lift, ret in Htr.
      destruct (get_prop req_body "headers") as [e | hdrs] eqn:Hh;
        [discriminate |].
      apply (headers_defined_is_object req_body hdrs Hh).
      intros ->. discriminate. }
    destruct Hobj as [props ->]. now apply make_options_other.
  - destruct Hin as [Hin | []]. discriminate.
  - destruct Hin as [Hin | [Hin | []]]; [discriminate |].
    injection Hin as <-.
    destruct Hdata as [Hdata | Hdata]; [congruence |].
    rewrite make_options_other by exact Hsig.
    simpl. now rewrite lookup_assign_other.
Qed.

Lemma proxy_forwards_other_options_witness :
  get_prop (make_options new_App Sample.get_pet) "url"
  = get_prop Sample.get_pet "url".
Proof.
  apply (proxy_forwards_other_options
           (Mock.platform (Mock.Responds 30 Sample.ok)) new_App
           Sample.get_pet (make_options new_App Sample.get_pet) "url").
  - left. reflexivity.
  - reflexivity.
  - left. reflexivity.
Defined.

(** ** More on the import *)

(** X5.  The import makes its calls in one fixed order, read, validate,
    resolve, parse, save, each at most once, and stops at the first that
    fails: no call follows a call that threw. *)
Theorem import_calls_in_order (P : Platform) (req_file : value) :
  (exists path api resolved entity rest,
      (fst (post_collection P req_file) ++ rest)%list
      = [ERead path; EValidate path; EResolve api; EParse resolved;
         ESave entity])
  /\ stops_at_first_failure P (fst (post_collection P req_file)) = true.
Proof.
  split; [| apply import_stops].
  unfold post_collection, createCollection, try_catch, bind, lift, call, ret.
  step_import Hpath;
    [exists Undefined, Undefined, Undefined, Undefined; eexists; reflexivity |].
  step_import Hread;
    [exists v, Undefined, Undefined, Undefined; eexists; reflexivity |].
  step_import Hval;
    [exists v, Undefined, Undefined, Undefined; eexists; reflexivity |].
  step_import Hres;
    [exists v, v0, Undefined, Undefined; eexists; reflexivity |].
  step_import Hresolved;
    [exists v, v0, Undefined, Undefined; eexists; reflexivity |].
  step_import Hparse;
    [exists v, v0, v2, Undefined; eexists; reflexivity |].
  step_import Hinfo;
    [exists v, v0, v2, Undefined; eexists; reflexivity |].
  step_import Htitle;
    [exists v, v0, v2, Undefined; eexists; reflexivity |].
  step_import Hjson;
    [exists v, v0, v2, Undefined; eexists; reflexivity |].
  step_import Hsave; do 4 eexists; exists []; reflexivity.
Qed.

Ltac find_save Hin :=
  simpl in Hin;
  repeat (destruct Hin as [Hin | Hin]; [try discriminate |]);
  try contradiction.

(** X6.  The repository is asked to save only after reading, validation,
    resolution and parsing have all succeeded, and what it is given is the
    title of the validated document, the text of the file as it was read,
    and the parsed nodes as a string. *)
Theorem import_saves_only_complete (P : Platform) (req_file entity : value) :
  In (ESave entity) (fst (post_collection P req_file)) ->
  exists path spec api resolvedSpec resolved parsedNodes info title nodes,
    get_prop req_file "path" = inr path
    /\ readFileSync P path = inr spec
    /\ validate P path = inr api
    /\ resolveRefs P api = inr resolvedSpec
    /\ get_prop resolvedSpec "resolved" = inr resolved
    /\ parse P resolved = inr parsedNodes
    /\ get_prop api "info" = inr info
    /\ get_prop info "title" = inr title
    /\ stringify P parsedNodes = inr nodes
    /\ entity = Obj [("name", title); ("collection", Str spec); ("nodes", nodes)].
Proof.
  unfold post_collection, createCollection, try_catch, bind, lift, call, ret.
  step_import Hpath; [contradiction |].
  step_import Hread; [intros Hin; find_save Hin |].
  step_import Hval; [intros Hin; find_save Hin |].
  step_import Hres; [intros Hin; find_save Hin |].
  step_import Hresolved; [intros Hin; find_save Hin |].
  step_import Hparse; [intros Hin; find_save Hin |].
  step_import Hinfo; [intros Hin; find_save Hin |].
  step_import Htitle; [intros Hin; find_save Hin |].
  step_import Hjson; [intros Hin; find_save Hin |].
  step_import Hsave; intros Hin; find_save Hin;
    injection Hin as <-; repeat eexists; eassumption.
Qed.

Lemma import_saves_only_complete_witness :
  exists path spec api resolvedSpec resolved parsedNodes info title nodes,
    get_prop (Obj [("path", Str "uploads/petstore.yaml")]) "path" = inr path
    /\ readFileSync (Mock.platform (Mock.Responds 30 Sample.ok)) path = inr spec
    /\ validate (Mock.platform (Mock.Responds 30 Sample.ok)) path = inr api
    /\ resolveRefs (Mock.platform (Mock.Responds 30 Sample.ok)) api
       = inr resolvedSpec
    /\ get_prop resolvedSpec "resolved" = inr resolved
    /\ parse (Mock.platform (Mock.Responds 30 Sample.ok)) resolved
       = inr parsedNodes
    /\ get_prop api "info" = inr info
    /\ get_prop info "title" = inr title
    /\ stringify (Mock.platform (Mock.Responds 30 Sample.ok)) parsedNodes
       = inr nodes
    /\ Obj [("name", Str "Swagger Petstore - OpenAPI 3.0");
            ("collection", Str "contents of uploads/petstore.yaml");
            ("nodes", Str "[]")]
       = Obj [("name", title); ("collection", Str spec); ("nodes", nodes)].
Proof.
  apply (import_saves_only_complete
           (Mock.platform (Mock.Responds 30 Sample.ok))
           (Obj [("path", Str "uploads/petstore.yaml")])).
  simpl. do 4 right. left. reflexivity.
Defined.

(** X7.  Without an uploaded file ([req.file] undefined or null) the import
    answers the fixed 500 and nothing is read. *)
Theorem import_without_upload (P : Platform) (req_file : value) :
  req_file = Undefined \/ req_file = Null ->
  post_collection P req_file = ([], parse_failure).
Proof.
  intros [-> | ->]; reflexivity.
Qed.

Lemma import_without_upload_witness :
  post_collection (Mock.platform (Mock.Responds 30 Sample.ok)) Undefined
  = ([], parse_failure).
Proof.
  apply (import_without_upload
           (Mock.platform (Mock.Responds 30 Sample.ok)) Undefined).
  now left.
Defined.

(** ** Object.assign *)

Lemma lookup_absent (k : string) (props : list (string * value)) :
  ~ In k (map fst props) -> lookup k props = None.
Proof.
  induction props as [| [k' v'] rest IH]; simpl; intros Hn.
  - reflexivity.
  - destruct (String.eqb k k') eqn:E.
    + apply String.eqb_eq in E. subst. exfalso. apply Hn. now left.
    + apply IH. intros Hin. apply Hn. now right.
Qed.

Lemma lookup_fold_assign (k : string) (source target : list (string * value)) :
  distinct_keys source ->
  String.eqb k "__proto__" = false ->
  lookup k (fold_left (fun t kv =>
                         if String.eqb (fst kv) "__proto__" then t
                         else assign (fst kv) (snd kv) t)
                      source target)
  = match lookup k source with
    | Some v => Some v
    | None => lookup k target
    end.
Proof.
  unfold distinct_keys. intros Hd Hk. revert target Hd.
  induction source as [| [k0 v0] rest IH]; simpl; intros target Hd.
  - reflexivity.
  - inversion Hd as [| ? ? Hnotin Hrest]; subst.
    rewrite IH by exact Hrest.
    destruct (String.eqb k k0) eqn:E.
    + apply String.eqb_eq in E. subst k0. rewrite Hk.
      rewrite (lookup_absent k rest Hnotin). apply lookup_assign_same.
    + destruct (lookup k rest); [reflexivity |].
      destruct (String.eqb k0 "__proto__"); [reflexivity |].
      now apply lookup_assign_other.
Qed.

(** A property of the source wins, any other property of the target stays;
    this for every name but '__proto__', which is never an own property of
    the result. *)
Lemma lookup_Object_assign (k : string) (target source : list (string * value)) :
  distinct_keys source ->
  String.eqb k "__proto__" = false ->
  lookup k (Object_assign target (Obj source))
  = match lookup k source with
    | Some v => Some v
    | None => lookup k target
    end.
Proof.
  intros Hd Hk. unfold Object_assign. simpl. now apply lookup_fold_assign.
Qed.

Lemma fold_prototype_absent (source : list (string * value)) (p : option value) :
  lookup "__proto__" source = None ->
  fold_left (fun p kv =>
               if String.eqb (fst kv) "__proto__" then
                 match snd kv with
                 | Undefined | Bool _ | Num _ | Str _ => p
                 | proto => Some proto
                 end
               else p)
            source p
  = p.
Proof.
  revert p. induction source as [| [k0 v0] rest IH]; intros p H.
  - reflexivity.
  - cbn [fold_left fst snd]. cbn [lookup] in H.
    destruct (String.eqb "__proto__" k0) eqn:E; [discriminate |].
    rewrite String.eqb_sym in E. rewrite E. now apply IH.
Qed.

(** A source without a '__proto__' key leaves the prototype alone. *)
Lemma assigned_prototype_absent (source : list (string * value)) :
  lookup "__proto__" source = None ->
  assigned_prototype (Obj source) = None.
Proof.
  intros H. unfold assigned_prototype. simpl. now apply fold_prototype_absent.
Qed.

(** ** The routes over the store *)

Section Routes.

Variable S : Store.

(** X8.  An id the repository does not know is answered 404 with the
    entity's name and the id, by the reading, the deleting and the updating
    route alike, and after the lookup nothing else is called: nothing is
    saved and nothing removed. *)
Theorem unknown_id_is_404 (t : Table) (id : string) :
  repo_findOneBy S t id = inr None ->
  get_by_id S t id = ([FindOneBy t id], inr (not_found t id))
  /\ delete_by_id S t id = ([FindOneBy t id], inr (not_found t id))
  /\ (t = FlowTests ->
      forall req_body,
        put_flowtest S id req_body = ([FindOneBy t id], inr (not_found t id))).
Proof.
  intros H. repeat split.
  - unfold get_by_id, wbind, wcall. now rewrite H.
  - unfold delete_by_id, wbind, wcall. now rewrite H.
  - intros -> req_body. unfold put_flowtest, wbind, wcall. now rewrite H.
Qed.

(** X9.  An update touches two properties only: what is saved is the entity
    that was found, with its [name] and [flowData] replaced; every other
    property, the id among them, is the stored one whatever the request
    body holds.  The reply is what the repository returned. *)
Theorem put_flowtest_keeps_identity (id : string) (req_body : value)
    (flowtest : Entity) :
  repo_findOneBy S FlowTests id = inr (Some flowtest) ->
  exists saved,
    fst (put_flowtest S id req_body)
    = [FindOneBy FlowTests id; Save FlowTests saved]
    /\ (forall k,
          String.eqb k "name" = false -> String.eqb k "flowData" = false ->
          lookup k saved = lookup k flowtest)
    /\ snd (put_flowtest S id req_body)
       = match repo_save S FlowTests saved with
         | inl e => inl e
         | inr result => inr (json (Obj result))
         end.
Proof.
  intros H. unfold put_flowtest, wbind, wcall, wret. rewrite H.
  eexists. split; [| split].
  - destruct (repo_save S FlowTests _); reflexivity.
  - intros k Hn Hf. simpl. now rewrite !lookup_assign_other.
  - simpl. destruct (repo_save S FlowTests _); reflexivity.
Qed.

(** X10.  The two properties an update writes are those of the request
    body laid over a fresh entity: a body that holds [name] sets it, and a
    body that lacks [flowData] and has no '__proto__' key to inherit one
    from, the fresh entity having none of its own, sets the stored
    [flowData] to undefined. *)
Theorem put_flowtest_takes_body (id : string) (body : list (string * value))
    (flowtest : Entity) (name : value) :
  repo_findOneBy S FlowTests id = inr (Some flowtest) ->
  distinct_keys body ->
  lookup "name" body = Some name ->
  lookup "flowData" body = None ->
  lookup "__proto__" body = None ->
  lookup "flowData" (new_entity S FlowTests) = None ->
  exists saved,
    fst (put_flowtest S id (Obj body))
    = [FindOneBy FlowTests id; Save FlowTests saved]
    /\ lookup "name" saved = Some name
    /\ lookup "flowData" saved = Some Undefined.
Proof.
  intros H Hd Hname Hflow Hproto Hnew.
  unfold put_flowtest, wbind, wcall, wret. rewrite H.
  eexists. split; [| split].
  - destruct (repo_save S FlowTests _); reflexivity.
  - simpl. rewrite lookup_assign_other by reflexivity.
    rewrite lookup_assign_same. unfold read.
    now rewrite (lookup_Object_assign "name" _ body Hd eq_refl), Hname.
  - simpl. rewrite lookup_assign_same. unfold read.
    rewrite (lookup_Object_assign "flowData" _ body Hd eq_refl), Hflow, Hnew.
    now rewrite (assigned_prototype_absent body Hproto).
Qed.


(** X12.  The reading routes ask the repository one question and call
    nothing else: they never save, remove or generate. *)
Theorem reading_routes_only_read (t : Table) (id : string) :
  fst (get_by_id S t id) = [FindOneBy t id]
  /\ fst (list_all S t) = [Find t].
Proof.
  unfold get_by_id, list_all, wbind, wcall, wret. split.
  - destruct (repo_findOneBy S t id) as [e | [found |]]; reflexivity.
  - destruct (repo_find S t); reflexivity.
Qed.

(** X13.  A listing route answers 200 with all the rows whenever the
    repository returns, also when there are none: an array is truthy, so
    its 404 'Error in fetching saved ...' is never sent. *)
Theorem list_all_never_404 (t : Table) :
  (forall rows,
      repo_find S t = inr rows ->
      list_all S t = ([Find t], inr (json (Arr (map Obj rows)))))
  /\ snd (list_all S t) <> inr (fetch_error t).
Proof.
  unfold list_all, wbind, wcall, wret. split.
  - intros rows ->. reflexivity.
  - destruct (repo_find S t); simpl; discriminate.
Qed.

(** X14.  A creating route hands the repository every property of the
    request body but '__proto__', which [Object.assign] does not make a
    property of the entity: a client that sends an id has that id saved. *)
Theorem create_keeps_body_properties (t : Table) (body : list (string * value))
    (k : string) (v : value) :
  distinct_keys body ->
  String.eqb k "__proto__" = false ->
  lookup k body = Some v ->
  exists newEntity,
    fst (create S t (Obj body)) = [Save t newEntity]
    /\ lookup k newEntity = Some v.
Proof.
  intros Hd Hproto Hk. unfold create, wbind, wcall, wret.
  eexists. split.
  - destruct (repo_save S t _); reflexivity.
  - now rewrite (lookup_Object_assign k _ body Hd Hproto), Hk.
Qed.

(** X15.  The routes over the store have no [catch]: when the repository
    call they start with fails, no reply is built and the route's promise
    is rejected with the repository's error. *)
Theorem store_failure_is_not_answered (t : Table) (id : string) (e : Error) :
  (repo_findOneBy S t id = inl e ->
   snd (get_by_id S t id) = inl e
   /\ snd (delete_by_id S t id) = inl e
   /\ (t = FlowTests -> forall req_body, snd (put_flowtest S id req_body) = inl e))
  /\ (repo_find S t = inl e -> snd (list_all S t) = inl e)
  /\ (forall req_body,
        repo_save S t (Object_assign (new_entity S t) req_body) = inl e ->
        snd (create S t req_body) = inl e).
Proof.
  repeat split.
  - unfold get_by_id, wbind, wcall. now rewrite H.
  - unfold delete_by_id, wbind, wcall. now rewrite H.
  - intros -> req_body. unfold put_flowtest, wbind, wcall. now rewrite H.
  - intros H. unfold list_all, wbind, wcall. now rewrite H.
  - intros req_body H. unfold create, wbind, wcall. now rewrite H.
Qed.

End Routes.

Lemma unknown_id_is_404_witness :
  delete_by_id (MockStore.of_rows MockStore.seeded) AuthKeys "k9"
  = ([FindOneBy AuthKeys "k9"],
     inr {| statusCode := 404;
            body := SendValue (Str "AuthKey k9 not found") |}).
Proof.
  apply (unknown_id_is_404 (MockStore.of_rows MockStore.seeded) AuthKeys "k9").
  reflexivity.
Defined.

(** A body that tries to move the flow to another id: the id saved is the
    stored one. *)
Lemma put_flowtest_keeps_identity_witness :
  exists saved,
    fst (put_flowtest (MockStore.of_rows MockStore.seeded) "a1"
                      (Obj [("id", Str "zz"); ("name", Str "renamed")]))
    = [FindOneBy FlowTests "a1"; Save FlowTests saved]
    /\ lookup "id" saved = lookup "id" MockStore.flow_a.
Proof.
  destruct (put_flowtest_keeps_identity
              (MockStore.of_rows MockStore.seeded) "a1"
              (Obj [("id", Str "zz"); ("name", Str "renamed")])
              MockStore.flow_a eq_refl)
    as (saved & Ht & Hk & _).
  exists saved. split; [exact Ht | now apply Hk].
Defined.

Lemma put_flowtest_takes_body_witness :
  exists saved,
    fst (put_flowtest (MockStore.of_rows MockStore.seeded) "a1"
                      (Obj [("name", Str "renamed")]))
    = [FindOneBy FlowTests "a1"; Save FlowTests saved]
    /\ lookup "name" saved = Some (Str "renamed")
    /\ lookup "flowData" saved = Some Undefined.
Proof.
  apply (put_flowtest_takes_body
           (MockStore.of_rows MockStore.seeded) "a1"
           [("name", Str "renamed")] MockStore.flow_a (Str "renamed"));
    try reflexivity.
  unfold distinct_keys. simpl. constructor; [intros [] | constructor].
Defined.


Lemma create_keeps_body_properties_witness :
  exists newEntity,
    fst (create (MockStore.of_rows MockStore.empty) FlowTests
                (Obj [("id", Str "mine"); ("name", Str "flow_2")]))
    = [Save FlowTests newEntity]
    /\ lookup "id" newEntity = Some (Str "mine").
Proof.
  apply (create_keeps_body_properties
           (MockStore.of_rows MockStore.empty) FlowTests
           [("id", Str "mine"); ("name", Str "flow_2")] "id" (Str "mine")).
  - unfold distinct_keys. simpl.
    constructor; [intros [H | []]; discriminate |].
    constructor; [intros [] | constructor].
  - reflexivity.
  - reflexivity.
Defined.

(** ** Start-up samples *)

Lemma no_store_call_in_import (A : Type) (m : M A) (c : Call) :
  In c (fst (from_platform m)) -> exists ev, c = Core ev.
Proof.
  unfold from_platform. simpl. intros Hin.
  apply in_map_iff in Hin. destruct Hin as (ev & <- & _). now exists ev.
Qed.

(** The calls of two steps in sequence are those of the first, then those
    of the second if the first returned. *)
Lemma in_wbind (A B : Type) (m : W A) (f : A -> W B) (c : Call) :
  In c (fst (wbind m f)) ->
  In c (fst m) \/ exists a, snd m = inr a /\ In c (fst (f a)).
Proof.
  unfold wbind. destruct m as [t [e | a]]; simpl.
  - auto.
  - destruct (f a) as [t' r] eqn:Hf. simpl. intros Hin.
    apply in_app_or in Hin. destruct Hin as [Hin | Hin]; [now left |].
    right. exists a. rewrite Hf. auto.
Qed.

Lemma init_sample_collection_calls (P : Platform) (S : Store) (c : Call) :
  In c (fst (init_sample_collection P S)) ->
  c = Find Collections \/ exists ev, c = Core ev.
Proof.
  intros Hin. unfold init_sample_collection in Hin.
  apply in_wbind in Hin. destruct Hin as [[Hin | []] | (cs & _ & Hin)].
  - now left.
  - right. destruct (find_named sample_collection_name cs).
    + contradiction.
    + apply in_wbind in Hin. destruct Hin as [Hin | (a & _ & [])].
      now apply no_store_call_in_import in Hin.
Qed.

(** X16.  With a collection named 'Swagger Petstore - OpenAPI 3.0' and a
    flow named 'flow_1' already stored, start-up asks for the two lists and
    does nothing else: no file is read and nothing is saved. *)
Theorem initSamples_creates_nothing_when_present (P : Platform) (S : Store)
    (collections flowtests : list Entity) (c f : Entity) :
  repo_find S Collections = inr collections ->
  find_named sample_collection_name collections = Some c ->
  repo_find S FlowTests = inr flowtests ->
  find_named sample_flow_name flowtests = Some f ->
  initSamples P S = ([Find Collections; Find FlowTests], inr tt).
Proof.
  intros Hc Hfc Hf Hff.
  unfold initSamples, init_sample_collection, init_sample_flow,
    wbind, wcall, wret.
  now rewrite Hc, Hfc, Hf, Hff.
Qed.

Lemma initSamples_creates_nothing_when_present_witness :
  initSamples (Mock.platform (Mock.Responds 30 Sample.ok))
              (MockStore.of_rows MockStore.seeded)
  = ([Find Collections; Find FlowTests], inr tt).
Proof.
  apply (initSamples_creates_nothing_when_present
           (Mock.platform (Mock.Responds 30 Sample.ok))
           (MockStore.of_rows MockStore.seeded)
           [MockStore.petstore_row] [MockStore.flow_a]
           MockStore.petstore_row MockStore.flow_a);
    reflexivity.
Defined.

(** X17.  When the sample collection is missing and creating it fails,
    start-up stops there: its promise is rejected with that error, the
    flows are not even listed and no sample flow is saved. *)
Theorem initSamples_stops_when_collection_fails (P : Platform) (S : Store)
    (collections : list Entity) (t : list Event) (e : Error) :
  repo_find S Collections = inr collections ->
  find_named sample_collection_name collections = None ->
  createCollection P sample_collection_path = (t, inl e) ->
  initSamples P S = ((Find Collections :: map Core t)%list, inl e).
Proof.
  intros Hc Hfc Hcreate.
  unfold initSamples, init_sample_collection, wbind, wcall, wret, from_platform.
  rewrite Hc, Hfc, Hcreate. simpl. reflexivity.
Qed.

Lemma initSamples_stops_when_collection_fails_witness :
  initSamples (Mock.platform (Mock.Responds 30 Sample.ok))
              (MockStore.of_rows MockStore.empty)
  = ([Find Collections;
      Core (ERead sample_collection_path);
      Core (EValidate sample_collection_path)],
     inl {| code := None; response := None; request := None;
            message := Some "not a valid Openapi API definition" |}).
Proof.
  apply (initSamples_stops_when_collection_fails
           (Mock.platform (Mock.Responds 30 Sample.ok))
           (MockStore.of_rows MockStore.empty) []
           [ERead sample_collection_path; EValidate sample_collection_path]);
    reflexivity.
Defined.

(** X18.  Start-up saves at most the two samples, each only when it is
    missing: through the flow repository only a fresh entity given the name
    'flow_1' and the text of the sample file, and only when no stored flow
    has that name; and through [createCollection] only what the import of
    the sample document saves, and only when no stored collection is named
    'Swagger Petstore - OpenAPI 3.0'. *)
Theorem initSamples_saves_only_missing_samples (P : Platform) (S : Store) :
  (forall t entity,
      In (Save t entity) (fst (initSamples P S)) ->
      t = FlowTests
      /\ exists flowtests flowData,
           repo_find S FlowTests = inr flowtests
           /\ find_named sample_flow_name flowtests = None
           /\ readFileSync P sample_flow_path = inr flowData
           /\ entity
              = Object_assign (new_entity S FlowTests)
                  (Obj [("name", Str sample_flow_name);
                        ("flowData", Str flowData)]))
  /\
  (forall entity,
      In (Core (ESave entity)) (fst (initSamples P S)) ->
      exists collections,
        repo_find S Collections = inr collections
        /\ find_named sample_collection_name collections = None
        /\ In (ESave entity)
              (fst (createCollection P sample_collection_path))).
Proof.
  split.
  - intros t entity Hin. unfold initSamples in Hin.
    apply in_wbind in Hin. destruct Hin as [Hin | (u & _ & Hin)].
    { apply init_sample_collection_calls in Hin.
      destruct Hin as [Hin | (ev & Hin)]; discriminate. }
    unfold init_sample_flow in Hin.
    apply in_wbind in Hin.
    destruct Hin as [[Hin | []] | (flowtests & Hf & Hin)]; [discriminate |].
    unfold wcall in Hf. simpl in Hf.
    destruct (find_named sample_flow_name flowtests) eqn:Hff; [contradiction |].
    apply in_wbind in Hin.
    destruct Hin as [[Hin | []] | (flowData & Hr & Hin)]; [discriminate |].
    unfold wcall in Hr. simpl in Hr.
    apply in_wbind in Hin. destruct Hin as [[Hin | []] | (a & _ & [])].
    injection Hin as <- <-. split; [reflexivity |].
    exists flowtests, flowData. auto.
  - intros entity Hin. unfold initSamples in Hin.
    apply in_wbind in Hin. destruct Hin as [Hin | (u & _ & Hin)].
    + unfold init_sample_collection in Hin.
      apply in_wbind in Hin.
      destruct Hin as [[Hin | []] | (collections & Hc & Hin)]; [discriminate |].
      unfold wcall in Hc. simpl in Hc.
      exists collections. split; [exact Hc |].
      destruct (find_named sample_collection_name collections);
        [contradiction |].
      split; [reflexivity |].
      apply in_wbind in Hin. destruct Hin as [Hin | (a & _ & [])].
      unfold from_platform in Hin. simpl in Hin.
      apply in_map_iff in Hin. destruct Hin as (ev & Hev & Hin).
      now injection Hev as ->.
    + unfold init_sample_flow in Hin.
      apply in_wbind in Hin.
      destruct Hin as [[Hin | []] | (flowtests & _ & Hin)]; [discriminate |].
      destruct (find_named sample_flow_name flowtests); [contradiction |].
      apply in_wbind in Hin.
      destruct Hin as [[Hin | []] | (flowData & _ & Hin)]; [discriminate |].
      apply in_wbind in Hin. destruct Hin as [[Hin | []] | (a & _ & [])].
      discriminate.
Qed.

(** A store with no sample at all: the sample collection is imported and
    saved, then the sample flow. *)
Lemma initSamples_saves_only_missing_samples_witness :
  exists collections,
    repo_find (MockStore.of_rows MockStore.empty) Collections = inr collections
    /\ find_named sample_collection_name collections = None
    /\ In (ESave (Obj [("name", Str "Swagger Petstore - OpenAPI 3.0");
                       ("collection",
                        Str "contents of src/samples/collection/petstore.yaml");
                       ("nodes", Str "[]")]))
          (fst (createCollection MockServer.sample_platform
                                 sample_collection_path)).
Proof.
  apply (proj2 (initSamples_saves_only_missing_samples
                  MockServer.sample_platform
                  (MockStore.of_rows MockStore.empty))).
  simpl. do 5 right. left. reflexivity.
Defined.
